(** * Qiskit Finance tutorial: portfolio optimization notebook

    A shallow embedding of the code cells of
    [legacy_tutorials/aqua/finance/optimization/portfolio_optimization.ipynb].

    The notebook defines two functions of its own, [index_to_selection] and
    [print_result], and otherwise sequences calls into qiskit and numpy.
    Python values are modelled as follows:
    - [int] (and numpy's integer scalars) as [Z];
    - finite [float]s as the rationals [Q] they denote;
    - [str] as [string];
    - numpy vectors as lists;
    - objects created by the library as opaque references [obj].

    The notebook itself is a program over the operations it delegates to
    qiskit, numpy and the kernel ([call]); running it against a library
    yields a transcript of the calls made, with their answers, and of the
    assignments to global names.  The library is arbitrary: what the
    theorems say holds whatever the library answers. *)

From Stdlib Require Import ZArith QArith Qabs String Ascii DecimalString.
From stdpp Require Import base list strings gmap sorting.

Local Open Scope Z_scope.

(** ** Python exceptions and the error monad *)

Inductive exn : Type :=
| IndexError
| KeyError (key : string)
| NameError (name : string)
| TypeError
| LibraryError (cls : string).

Definition except (A : Type) : Type := (exn + A)%type.

#[global] Instance except_ret : MRet except := fun A a => inr a.
#[global] Instance except_bind : MBind except :=
  fun A B f m => match m with inl e => inl e | inr a => f a end.
#[global] Instance except_fmap : FMap except :=
  fun A B f m => match m with inl e => inl e | inr a => inr (f a) end.

Module Py.

(** [range(n)] and [reversed(range(n))]: empty when [n <= 0]. *)
Definition range (n : Z) : list Z := seqZ 0 n.
Definition reversed {A} (l : list A) : list A := reverse l.

(** ["{0:b}".format(i)]: binary digits, most significant first, with a
    leading minus sign for negative numbers. *)
Fixpoint bin_pos (p : positive) : string :=
  match p with
  | xH => "1"
  | xO p' => bin_pos p' +:+ "0"
  | xI p' => bin_pos p' +:+ "1"
  end.

Definition format_b (i : Z) : string :=
  match i with
  | Z0 => "0"
  | Zpos p => bin_pos p
  | Zneg p => "-" +:+ bin_pos p
  end.

(** [s.rjust(width)]: pad with spaces on the left up to [width]; a string
    that is already long enough is returned unchanged.  [width] is any
    integer here.  CPython first converts it to a C [ssize_t] and raises
    [OverflowError] when it is below -2^63 or not below 2^63; that
    conversion is not part of this definition, and what is proved about
    widths outside that range is not about CPython. *)
Definition spaces (n : nat) : string := string_of_list_ascii (replicate n " "%char).

Definition rjust (s : string) (width : Z) : string :=
  let len := Z.of_nat (String.length s) in
  if width <=? len then s else spaces (Z.to_nat (width - len)) +:+ s.

(** [s[i]] on a [str]: negative indices count from the end, anything out
    of range raises [IndexError]. *)
Definition str_getitem (s : string) (i : Z) : except ascii :=
  let len := Z.of_nat (String.length s) in
  let j := if i <? 0 then i + len else i in
  if (0 <=? j) && (j <? len) then
    match String.get (Z.to_nat j) s with
    | Some c => inr c
    | None => inl IndexError
    end
  else inl IndexError.

(** [a[i]] on a one-dimensional array, same index discipline. *)
Definition getitem {A} (a : list A) (i : Z) : except A :=
  let len := Z.of_nat (length a) in
  let j := if i <? 0 then i + len else i in
  if (0 <=? j) && (j <? len) then
    match a !! Z.to_nat j with
    | Some x => inr x
    | None => inl IndexError
    end
  else inl IndexError.

(** [d[key]] on a [dict]. *)
Definition dict_getitem {A} (d : gmap string A) (key : string) : except A :=
  match d !! key with
  | Some x => inr x
  | None => inl (KeyError key)
  end.

(** [str(i)] for an [int], as substituted by ["%s" % i]. *)
Definition str_int (i : Z) : string := NilZero.string_of_int (Z.to_int i).

(** [a / b] on [int]s is true division and yields a [float]; [int(x)]
    truncates a [float] towards zero.  The quotient is taken exactly, which
    agrees with the IEEE result whenever that quotient is representable (as
    it is for [num_assets / 2] below 2^53). *)
Definition truediv (a b : Z) : Q := (inject_Z a / inject_Z b)%Q.
Definition int (x : Q) : Z := Z.quot (Qnum x) (Zpos (Qden x)).

End Py.

(** ** [index_to_selection] (cell 5)

<<
def index_to_selection(i, num_assets):
    s = "{0:b}".format(i).rjust(num_assets)
    x = np.array([1 if s[i]=='1' else 0 for i in reversed(range(num_assets))])
    return x
>> *)

Definition index_to_selection (i num_assets : Z) : except (list Z) :=
  let s := Py.rjust (Py.format_b i) num_assets in
  mapM (fun i => c ← Py.str_getitem s i;
                 mret (if Ascii.eqb c "1" then 1 else 0))
       (Py.reversed (Py.range num_assets)).

(** The integer a selection vector encodes: the sum of [x[j] * 2^j]. *)
Definition selection_value (x : list Z) : Z :=
  foldr Z.add 0 (imap (fun j b => b * 2 ^ Z.of_nat j) x).

Definition binary (x : list Z) : Prop := Forall (fun b => b = 0 \/ b = 1) x.

(** ** Values the notebook handles *)

(** A reference to an object built by the library (a data provider, an
    operator, an algorithm, a backend, ...). *)
Definition obj : Type := N.

(** A state vector: complex amplitudes, real and imaginary part. *)
Definition statevector : Type := list (Q * Q).

(** A one-dimensional numpy array of floats ([sample_most_likely] returns
    one) or of integers ([index_to_selection] builds one). *)
Inductive array : Type :=
| FloatArr (a : list Q)
| IntArr (a : list Z).

(** What a global name of the notebook can be bound to. *)
Inductive val : Type :=
| VInt (i : Z)
| VFloat (x : Q)
| VObj (o : obj)
| VStrs (l : list string)
| VVec (a : list Q)
| VMat (a : list (list Q))
| VDict (d : gmap string (list statevector)).

(** A string produced by [template.format(args)] or [template % args],
    or a literal.  Rendering of floats and arrays is left to Python. *)
Inductive fmt_arg : Type :=
| FArray (a : array)
| FFloat (x : Q).

Inductive text : Type :=
| Literal (s : string)
| StrFormat (template : string) (args : list fmt_arg)
| PercentFormat (template : string) (args : list fmt_arg).

(** ** The library interface

    Every operation the notebook delegates to qiskit, numpy, the standard
    library or the IPython kernel, indexed by the type of its answer. *)
Inductive call : Type -> Type :=
| py_import (stmt : string) : call unit
| ipython_magic (line : string) : call unit
| print (t : text) : call unit
| IBMQ_load_account : call obj
| datetime_datetime (year month day : Z) : call obj
| RandomDataProvider (tickers : list string) (start end_ : obj) : call obj
| data_run (data : obj) : call unit
| get_period_return_mean_vector (data : obj) : call (list Q)
| get_period_return_covariance_matrix (data : obj) : call (list (list Q))
| portfolio_get_operator (mu : list Q) (sigma : list (list Q)) (q : Q)
                         (budget penalty : Z) : call (obj * Q)
| portfolio_portfolio_value (x : array) (mu : list Q) (sigma : list (list Q))
                            (q : Q) (budget penalty : Z) : call Q
| sample_most_likely (state_vector : statevector) : call (list Q)
| ExactEigensolver (operator : obj) (k : Z) : call obj
| VQE (operator var_form optimizer : obj) : call obj
| QAOA (operator optimizer : obj) (p : Z) : call obj
| algorithm_run (algorithm : obj) (quantum_instance : option obj)
    : call (gmap string (list statevector))
| set_random_seed (algorithm : obj) (seed : Z) : call unit
| BasicAer_get_backend (name : string) : call obj
| COBYLA : call obj
| set_options (optimizer : obj) (maxiter : Z) : call unit
| operator_num_qubits (operator : obj) : call Z
| RY (num_qubits depth : Z) (entanglement : string) : call obj
| QuantumInstance (backend : obj) (seed_simulator seed_transpiler : Z) : call obj
| np_abs (v : statevector) : call (list Q)
| ndarray_pow (a : list Q) (exponent : Z) : call (list Q)
| np_argsort (a : list Q) : call (list Z).

(** ** Programs

    A notebook computation either returns, raises, calls the library and
    continues with its answer, reads or assigns a global name, or runs a
    [try/except] block.  The notebook has no [try/except]; the construct
    is part of the language so that its absence is a property of a program
    ([handler_free]) rather than of the language. *)
Inductive prog (A : Type) : Type :=
| Ret (a : A)
| Raise (e : exn)
| Call {X : Type} (c : call X) (k : X -> prog A)
| Load (x : string) (k : val -> prog A)
| Store (x : string) (v : val) (k : prog A)
| Try (body : prog unit) (handler : exn -> prog unit) (k : prog A).

Arguments Ret {A} a.
Arguments Raise {A} e.
Arguments Call {A X} c k.
Arguments Load {A} x k.
Arguments Store {A} x v k.
Arguments Try {A} body handler k.

Fixpoint bind {A B : Type} (p : prog A) (f : A -> prog B) : prog B :=
  match p with
  | Ret a => f a
  | Raise e => Raise e
  | Call c k => Call c (fun x => bind (k x) f)
  | Load x k => Load x (fun v => bind (k v) f)
  | Store x v k => Store x v (bind k f)
  | Try body handler k => Try body handler (bind k f)
  end.

#[global] Instance prog_ret : MRet prog := @Ret.
#[global] Instance prog_bind : MBind prog := fun A B f p => bind p f.

Arguments prog_ret {A} a /.
Arguments prog_bind {A B} f p /.

Definition call_ {X : Type} (c : call X) : prog X := Call c Ret.
Definition store (x : string) (v : val) : prog unit := Store x v (Ret tt).
Definition lift {A : Type} (r : except A) : prog A :=
  match r with inl e => Raise e | inr a => Ret a end.

Arguments lift {A} r /.

(** Reading a global where the code hands it to the library or to
    [index_to_selection].  The library interface is typed, so the read
    expects the kind of value the interface lists at that place, the kind
    the notebook itself assigns to the name.  A name bound to another kind
    of value ends the program with [TypeError] here, where Python would
    pass the object on and leave the matter to the callee: such namespaces
    are outside what is modelled. *)
Definition load_int (x : string) : prog Z :=
  Load x (fun v => match v with VInt i => Ret i | _ => Raise TypeError end).
Definition load_float (x : string) : prog Q :=
  Load x (fun v => match v with VFloat a => Ret a | _ => Raise TypeError end).
Definition load_obj (x : string) : prog obj :=
  Load x (fun v => match v with VObj o => Ret o | _ => Raise TypeError end).
Definition load_strs (x : string) : prog (list string) :=
  Load x (fun v => match v with VStrs l => Ret l | _ => Raise TypeError end).
Definition load_vec (x : string) : prog (list Q) :=
  Load x (fun v => match v with VVec a => Ret a | _ => Raise TypeError end).
Definition load_mat (x : string) : prog (list (list Q)) :=
  Load x (fun v => match v with VMat a => Ret a | _ => Raise TypeError end).
Definition load_dict (x : string) : prog (gmap string (list statevector)) :=
  Load x (fun v => match v with VDict d => Ret d | _ => Raise TypeError end).

(** [for x in l: body x] *)
Fixpoint for_ {A : Type} (l : list A) (body : A -> prog unit) : prog unit :=
  match l with
  | [] => Ret tt
  | x :: l' => body x;; for_ l' body
  end.

(** ** Running a program against a library

    The library is any function that, given what happened so far, answers
    the next call or raises.  [run] keeps a transcript: every library call
    with its answer, and every assignment to a global name. *)
Inductive event : Type :=
| Ev {X : Type} (c : call X) (r : except X)
| Assigned (x : string) (v : val).

Definition library : Type := list event -> forall X, call X -> except X.

(** The notebook's namespace: the global names and what they are bound to. *)
Abbreviation globals := (gmap string val).

Fixpoint run {A : Type} (lib : library) (p : prog A) (g : globals) (tr : list event)
  : list event * globals * except A :=
  match p with
  | Ret a => (tr, g, inr a)
  | Raise e => (tr, g, inl e)
  | Call c k =>
      match lib tr _ c with
      | inl e => (tr ++ [Ev c (inl e)], g, inl e)
      | inr x => run lib (k x) g (tr ++ [Ev c (inr x)])
      end
  | Load x k =>
      match g !! x with
      | Some v => run lib (k v) g tr
      | None => (tr, g, inl (NameError x))
      end
  | Store x v k => run lib k (<[x:=v]> g) (tr ++ [Assigned x v])
  | Try body handler k =>
      match run lib body g tr with
      | (tr1, g1, inr _) => run lib k g1 tr1
      | (tr1, g1, inl e) =>
          match run lib (handler e) g1 tr1 with
          | (tr2, g2, inr _) => run lib k g2 tr2
          | (tr2, g2, inl e') => (tr2, g2, inl e')
          end
      end
  end.

(** ** [print_result] (cell 5)

<<
def print_result(result):
    selection = sample_most_likely(result['eigvecs'][0])
    value = portfolio.portfolio_value(selection, mu, sigma, q, budget, penalty)
    print('Optimal: selection {}, value {:.4f}'.format(selection, value))

    probabilities = np.abs(result['eigvecs'][0])**2
    i_sorted = reversed(np.argsort(probabilities))
    print('\n----------------- Full result ---------------------')
    print('selection\tvalue\t\tprobability')
    print('---------------------------------------------------')
    for i in i_sorted:
        x = index_to_selection(i, num_assets)
        value = portfolio.portfolio_value(x, mu, sigma, q, budget, penalty)
        probability = probabilities[i]
        print('%10s\t%.4f\t\t%.4f' %(x, value, probability))
>>
    [mu], [sigma], [q], [budget], [penalty] and [num_assets] are globals of
    the notebook, read each time they are mentioned. *)

Definition tab : string := String (ascii_of_nat 9) EmptyString.
Definition newline : string := String (ascii_of_nat 10) EmptyString.

Definition optimal_template : string := "Optimal: selection {}, value {:.4f}".
Definition full_result_line : string :=
  newline +:+ "----------------- Full result ---------------------".
Definition header_line : string :=
  "selection" +:+ tab +:+ "value" +:+ tab +:+ tab +:+ "probability".
Definition rule_line : string :=
  "---------------------------------------------------".
Definition row_template : string :=
  "%10s" +:+ tab +:+ "%.4f" +:+ tab +:+ tab +:+ "%.4f".

(** [result['eigvecs'][0]] *)
Definition eigvecs_0 (result : gmap string (list statevector)) : except statevector :=
  eigvecs ← Py.dict_getitem result "eigvecs";
  Py.getitem eigvecs 0.

(** The body of the [for] loop: one row of the table. *)
Definition print_row (probabilities : list Q) (i : Z) : prog unit :=
  num_assets ← load_int "num_assets";
  x ← lift (index_to_selection i num_assets);
  mu ← load_vec "mu"; sigma ← load_mat "sigma"; q ← load_float "q";
  budget ← load_int "budget"; penalty ← load_int "penalty";
  value ← call_ (portfolio_portfolio_value (IntArr x) mu sigma q budget penalty);
  probability ← lift (Py.getitem probabilities i);
  call_ (print (PercentFormat row_template
                  [FArray (IntArr x); FFloat value; FFloat probability])).

Definition print_result (result : gmap string (list statevector)) : prog unit :=
  v ← lift (eigvecs_0 result);
  selection ← call_ (sample_most_likely v);
  mu ← load_vec "mu"; sigma ← load_mat "sigma"; q ← load_float "q";
  budget ← load_int "budget"; penalty ← load_int "penalty";
  value ← call_ (portfolio_portfolio_value (FloatArr selection) mu sigma q budget penalty);
  call_ (print (StrFormat optimal_template [FArray (FloatArr selection); FFloat value]));;

  v ← lift (eigvecs_0 result);
  a ← call_ (np_abs v);
  probabilities ← call_ (ndarray_pow a 2);
  sorted ← call_ (np_argsort probabilities);
  let i_sorted := Py.reversed sorted in
  call_ (print (Literal full_result_line));;
  call_ (print (Literal header_line));;
  call_ (print (Literal rule_line));;
  for_ i_sorted (print_row probabilities).

(** ** The code cells, in notebook order *)

(** Cell 1: imports. *)
Definition cell1 : prog unit :=
  call_ (py_import "from qiskit import BasicAer");;
  call_ (py_import "from qiskit.aqua import QuantumInstance");;
  call_ (py_import "from qiskit.finance.ising import portfolio");;
  call_ (py_import "from qiskit.optimization.ising.common import sample_most_likely");;
  call_ (py_import "from qiskit.finance.data_providers import RandomDataProvider");;
  call_ (py_import "from qiskit.aqua.algorithms import VQE, QAOA, ExactEigensolver");;
  call_ (py_import "from qiskit.aqua.components.optimizers import COBYLA");;
  call_ (py_import "from qiskit.aqua.components.variational_forms import RY");;
  call_ (py_import "import numpy as np");;
  call_ (py_import "import datetime").

(** Cell 2:
<<
from qiskit import IBMQ
provider = IBMQ.load_account()
>> *)
Definition cell2 : prog unit :=
  call_ (py_import "from qiskit import IBMQ");;
  provider ← call_ IBMQ_load_account;
  store "provider" (VObj provider).

(** Cell 3:
<<
num_assets = 4
stocks = [("TICKER%s" % i) for i in range(num_assets)]
data = RandomDataProvider(tickers=stocks,
                 start=datetime.datetime(2016,1,1),
                 end=datetime.datetime(2016,1,30))
data.run()
mu = data.get_period_return_mean_vector()
sigma = data.get_period_return_covariance_matrix()
>> *)
Definition cell3 : prog unit :=
  store "num_assets" (VInt 4);;
  num_assets ← load_int "num_assets";
  store "stocks" (VStrs ((fun i => "TICKER" +:+ Py.str_int i) <$> Py.range num_assets));;
  stocks ← load_strs "stocks";
  start ← call_ (datetime_datetime 2016 1 1);
  end_ ← call_ (datetime_datetime 2016 1 30);
  data ← call_ (RandomDataProvider stocks start end_);
  store "data" (VObj data);;
  data ← load_obj "data";
  call_ (data_run data);;
  data ← load_obj "data";
  mu ← call_ (get_period_return_mean_vector data);
  store "mu" (VVec mu);;
  data ← load_obj "data";
  sigma ← call_ (get_period_return_covariance_matrix data);
  store "sigma" (VMat sigma).

(** Cell 4:
<<
q = 0.5
budget = int(num_assets / 2)
penalty = num_assets
qubitOp, offset = portfolio.get_operator(mu, sigma, q, budget, penalty)
>> *)
Definition cell4 : prog unit :=
  store "q" (VFloat (1 # 2));;
  num_assets ← load_int "num_assets";
  store "budget" (VInt (Py.int (Py.truediv num_assets 2)));;
  num_assets ← load_int "num_assets";
  store "penalty" (VInt num_assets);;
  mu ← load_vec "mu"; sigma ← load_mat "sigma"; q ← load_float "q";
  budget ← load_int "budget"; penalty ← load_int "penalty";
  '(qubitOp, offset) ← call_ (portfolio_get_operator mu sigma q budget penalty);
  store "qubitOp" (VObj qubitOp);;
  store "offset" (VFloat offset).

(** Cell 6:
<<
exact_eigensolver = ExactEigensolver(qubitOp, k=1)
result = exact_eigensolver.run()
print_result(result)
>> *)
Definition cell6 : prog unit :=
  qubitOp ← load_obj "qubitOp";
  exact_eigensolver ← call_ (ExactEigensolver qubitOp 1);
  store "exact_eigensolver" (VObj exact_eigensolver);;
  exact_eigensolver ← load_obj "exact_eigensolver";
  result ← call_ (algorithm_run exact_eigensolver None);
  store "result" (VDict result);;
  result ← load_dict "result";
  print_result result.

(** Cell 7:
<<
backend = BasicAer.get_backend('statevector_simulator')
seed = 50
cobyla = COBYLA()
cobyla.set_options(maxiter=500)
ry = RY(qubitOp.num_qubits, depth=3, entanglement='full')
vqe = VQE(qubitOp, ry, cobyla)
vqe.random_seed = seed
quantum_instance = QuantumInstance(backend=backend, seed_simulator=seed, seed_transpiler=seed)
result = vqe.run(quantum_instance)
print_result(result)
>> *)
Definition cell7 : prog unit :=
  backend ← call_ (BasicAer_get_backend "statevector_simulator");
  store "backend" (VObj backend);;
  store "seed" (VInt 50);;
  cobyla ← call_ COBYLA;
  store "cobyla" (VObj cobyla);;
  cobyla ← load_obj "cobyla";
  call_ (set_options cobyla 500);;
  qubitOp ← load_obj "qubitOp";
  num_qubits ← call_ (operator_num_qubits qubitOp);
  ry ← call_ (RY num_qubits 3 "full");
  store "ry" (VObj ry);;
  qubitOp ← load_obj "qubitOp"; ry ← load_obj "ry"; cobyla ← load_obj "cobyla";
  vqe ← call_ (VQE qubitOp ry cobyla);
  store "vqe" (VObj vqe);;
  seed ← load_int "seed"; vqe ← load_obj "vqe";
  call_ (set_random_seed vqe seed);;
  backend ← load_obj "backend";
  seed_simulator ← load_int "seed"; seed_transpiler ← load_int "seed";
  quantum_instance ← call_ (QuantumInstance backend seed_simulator seed_transpiler);
  store "quantum_instance" (VObj quantum_instance);;
  vqe ← load_obj "vqe"; quantum_instance ← load_obj "quantum_instance";
  result ← call_ (algorithm_run vqe (Some quantum_instance));
  store "result" (VDict result);;
  result ← load_dict "result";
  print_result result.

(** Cell 8:
<<
backend = BasicAer.get_backend('statevector_simulator')
seed = 50
cobyla = COBYLA()
cobyla.set_options(maxiter=250)
qaoa = QAOA(qubitOp, cobyla, 3)
qaoa.random_seed = seed
quantum_instance = QuantumInstance(backend=backend, seed_simulator=seed, seed_transpiler=seed)
result = qaoa.run(quantum_instance)
print_result(result)
>> *)
Definition cell8 : prog unit :=
  backend ← call_ (BasicAer_get_backend "statevector_simulator");
  store "backend" (VObj backend);;
  store "seed" (VInt 50);;
  cobyla ← call_ COBYLA;
  store "cobyla" (VObj cobyla);;
  cobyla ← load_obj "cobyla";
  call_ (set_options cobyla 250);;
  qubitOp ← load_obj "qubitOp"; cobyla ← load_obj "cobyla";
  qaoa ← call_ (QAOA qubitOp cobyla 3);
  store "qaoa" (VObj qaoa);;
  seed ← load_int "seed"; qaoa ← load_obj "qaoa";
  call_ (set_random_seed qaoa seed);;
  backend ← load_obj "backend";
  seed_simulator ← load_int "seed"; seed_transpiler ← load_int "seed";
  quantum_instance ← call_ (QuantumInstance backend seed_simulator seed_transpiler);
  store "quantum_instance" (VObj quantum_instance);;
  qaoa ← load_obj "qaoa"; quantum_instance ← load_obj "quantum_instance";
  result ← call_ (algorithm_run qaoa (Some quantum_instance));
  store "result" (VDict result);;
  result ← load_dict "result";
  print_result result.

(** Cell 9:
<<
import qiskit.tools.jupyter
%qiskit_version_table
%qiskit_copyright
>> *)
Definition cell9 : prog unit :=
  call_ (py_import "import qiskit.tools.jupyter");;
  call_ (ipython_magic "%qiskit_version_table");;
  call_ (ipython_magic "%qiskit_copyright").

(** The whole notebook, run top to bottom from an empty namespace.  Cell 5
    only defines [index_to_selection] and [print_result]. *)
Definition notebook : prog unit :=
  cell1;; cell2;; cell3;; cell4;; cell6;; cell7;; cell8;; cell9.

(** ** Reading a transcript *)

Definition answer {X : Type} (r : except X) : option X :=
  match r with inr x => Some x | inl _ => None end.

(** The exception a library call ended with, if any. *)
Definition raised (ev : event) : option exn :=
  match ev with
  | Ev _ (inl e) => Some e
  | _ => None
  end.

(** The values assigned to the global name [x]. *)
Definition assigned (x : string) (ev : event) : option val :=
  match ev with
  | Assigned y v => if decide (y = x) then Some v else None
  | _ => None
  end.

(** What a [print] call was given. *)
Definition printed (ev : event) : option text :=
  match ev with
  | Ev (print t) _ => Some t
  | _ => None
  end.

(** The five parameters of the portfolio problem. *)
Record problem : Type := Problem {
  problem_mu : list Q;
  problem_sigma : list (list Q);
  problem_q : Q;
  problem_budget : Z;
  problem_penalty : Z
}.

(** Calls of [portfolio.get_operator], with the operator returned. *)
Definition get_operator_call (ev : event) : option problem :=
  match ev with
  | Ev (portfolio_get_operator mu sigma q budget penalty) _ =>
      Some (Problem mu sigma q budget penalty)
  | _ => None
  end.

Definition operator_built (ev : event) : option obj :=
  match ev with
  | @Ev X c r =>
      match c in call X return except X -> option obj with
      | portfolio_get_operator _ _ _ _ _ => fun r => fst <$> answer r
      | _ => fun _ => None
      end r
  | _ => None
  end.

(** Calls of [portfolio.portfolio_value]: the selection and the parameters. *)
Definition portfolio_value_call (ev : event) : option (array * problem) :=
  match ev with
  | Ev (portfolio_portfolio_value x mu sigma q budget penalty) _ =>
      Some (x, Problem mu sigma q budget penalty)
  | _ => None
  end.

(** Algorithm objects built, and the ones whose [run] was called. *)
Inductive algorithm : Type :=
| AlgExactEigensolver (operator : obj) (k : Z)
| AlgVQE (operator var_form optimizer : obj)
| AlgQAOA (operator optimizer : obj) (p : Z).

Definition constructed (ev : event) : option (algorithm * obj) :=
  match ev with
  | @Ev X c r =>
      match c in call X return except X -> option (algorithm * obj) with
      | ExactEigensolver op k =>
          fun r => pair (AlgExactEigensolver op k) <$> answer r
      | VQE op var_form optimizer =>
          fun r => pair (AlgVQE op var_form optimizer) <$> answer r
      | QAOA op optimizer p =>
          fun r => pair (AlgQAOA op optimizer p) <$> answer r
      | _ => fun _ => None
      end r
  | _ => None
  end.

Definition ran (ev : event) : option obj :=
  match ev with
  | Ev (algorithm_run alg _) _ => Some alg
  | _ => None
  end.

(** The calls that create, fill and query the data provider. *)
Inductive data_step : Type :=
| MadeDatetime (year month day : Z) (date : obj)
| MadeProvider (tickers : list string) (start end_ : obj) (data : obj)
| RanProvider (data : obj)
| GotMeanVector (data : obj) (mu : list Q)
| GotCovarianceMatrix (data : obj) (sigma : list (list Q)).

Definition data_call (ev : event) : option data_step :=
  match ev with
  | @Ev X c r =>
      match c in call X return except X -> option data_step with
      | datetime_datetime y m d => fun r => MadeDatetime y m d <$> answer r
      | RandomDataProvider tickers start end_ =>
          fun r => MadeProvider tickers start end_ <$> answer r
      | data_run data => fun r => (fun _ => RanProvider data) <$> answer r
      | get_period_return_mean_vector data =>
          fun r => GotMeanVector data <$> answer r
      | get_period_return_covariance_matrix data =>
          fun r => GotCovarianceMatrix data <$> answer r
      | _ => fun _ => None
      end r
  | _ => None
  end.

(** The rows of the "Full result" table: selection, value, probability. *)
Definition table_row (t : text) : option (list Z * Q * Q) :=
  match t with
  | PercentFormat template [FArray (IntArr x); FFloat value; FFloat probability] =>
      if decide (template = row_template) then Some (x, value, probability)
      else None
  | _ => None
  end.

Definition table_rows (tr : list event) : list (list Z * Q * Q) :=
  omap table_row (omap printed tr).

(** The globals [print_result] reads hold the problem [pb]. *)
Definition bound (g : globals) (pb : problem) : Prop :=
  g !! "mu" = Some (VVec (problem_mu pb)) /\
  g !! "sigma" = Some (VMat (problem_sigma pb)) /\
  g !! "q" = Some (VFloat (problem_q pb)) /\
  g !! "budget" = Some (VInt (problem_budget pb)) /\
  g !! "penalty" = Some (VInt (problem_penalty pb)).

Definition value_event (pb : problem) (x : array) (value : Q) : event :=
  Ev (portfolio_portfolio_value x (problem_mu pb) (problem_sigma pb)
        (problem_q pb) (problem_budget pb) (problem_penalty pb)) (inr value).

Definition print_event (t : text) : event := Ev (print t) (inr tt).

(** The text of a table row. *)
Definition row_text (row : list Z * Q * Q) : text :=
  let '(x, value, probability) := row in
  PercentFormat row_template [FArray (IntArr x); FFloat value; FFloat probability].

(** The transcript of one completed pass through the loop body. *)
Definition row_events (pb : problem) (row : list Z * Q * Q) : list event :=
  let '(x, value, probability) := row in
  [value_event pb (IntArr x) value; print_event (row_text row)].

(** Row [row] is the one the loop prints for index [i]. *)
Definition row_for (g : globals) (probabilities : list Q) (i : Z)
    (row : list Z * Q * Q) : Prop :=
  exists num_assets,
    g !! "num_assets" = Some (VInt num_assets) /\
    index_to_selection i num_assets = inr (row.1.1) /\
    Py.getitem probabilities i = inr (row.2).

(** The transcript of a completed [print_result result]. *)
Definition print_result_transcript (pb : problem) (v : statevector)
    (selection : list Q) (value : Q) (a probabilities : list Q)
    (sorted : list Z) (rows : list (list Z * Q * Q)) : list event :=
  [Ev (sample_most_likely v) (inr selection);
   value_event pb (FloatArr selection) value;
   print_event (StrFormat optimal_template
                  [FArray (FloatArr selection); FFloat value]);
   Ev (np_abs v) (inr a);
   Ev (ndarray_pow a 2) (inr probabilities);
   Ev (np_argsort probabilities) (inr sorted);
   print_event (Literal full_result_line);
   print_event (Literal header_line);
   print_event (Literal rule_line)]
  ++ (rows ≫= row_events pb).

(** The only transcript entries [print_result] can produce, completed or
    not, when the globals hold the problem [pb]. *)
Definition print_result_event (pb : problem) (ev : event) : Prop :=
  match ev with
  | Ev c _ =>
      match c with
      | portfolio_portfolio_value _ mu sigma q budget penalty =>
          Problem mu sigma q budget penalty = pb
      | sample_most_likely _ | print _ | np_abs _ | ndarray_pow _ _
      | np_argsort _ => True
      | _ => False
      end
  | Assigned _ _ => False
  end.

(** All vectors of [n] entries in {0, 1}. *)
Fixpoint all_selections (n : nat) : list (list Z) :=
  match n with
  | O => [[]]
  | S n' => x ← all_selections n'; [0 :: x; 1 :: x]
  end.

(** What numpy promises about [np.abs], [**] and [np.argsort] on a vector:
    the first two keep the length, the third returns the indices in an order
    that makes the entries ascend. *)
Definition is_argsort (a : list Q) (sorted : list Z) : Prop :=
  sorted ≡ₚ Py.range (Z.of_nat (length a)) /\
  Sorted Qle (omap (fun i => a !! Z.to_nat i) sorted).

Definition numpy_answer (ev : event) : Prop :=
  match ev with
  | @Ev X c r =>
      match c in call X return except X -> Prop with
      | np_abs v => fun r => forall a, r = inr a -> length a = length v
      | ndarray_pow a _ => fun r => forall b, r = inr b -> length b = length a
      | np_argsort a => fun r => forall sorted, r = inr sorted -> is_argsort a sorted
      | _ => fun _ => True
      end r
  | _ => True
  end.

(** A program without [try/except]. *)
Inductive handler_free : forall {A : Type}, prog A -> Prop :=
| hf_Ret {A : Type} (a : A) : handler_free (Ret a)
| hf_Raise {A : Type} e : handler_free (@Raise A e)
| hf_Call {A X : Type} (c : call X) (k : X -> prog A) :
    (forall x, handler_free (k x)) -> handler_free (Call c k)
| hf_Load {A : Type} x (k : val -> prog A) :
    (forall v, handler_free (k v)) -> handler_free (Load x k)
| hf_Store {A : Type} x v (k : prog A) :
    handler_free k -> handler_free (Store x v k).

(** The characters of a string, and the entry a character of the padded
    binary string contributes to the selection. *)
Definition chars (s : string) : list ascii := list_ascii_of_string s.
Definition digit (c : ascii) : Z := if Ascii.eqb c "1" then 1 else 0.

(** The selection [index_to_selection] returns, as a total function. *)
Definition selection_of (n i : Z) : list Z :=
  reverse (digit <$> take (Z.to_nat n) (chars (Py.rjust (Py.format_b i) n))).

(** ** Further readings of a transcript *)

(** An assignment to a global name, whatever the name. *)
Definition assignment (ev : event) : option (string * val) :=
  match ev with
  | Assigned x v => Some (x, v)
  | _ => None
  end.

(** A program that assigns no global name and has no [try/except]. *)
Inductive assignment_free : forall {A : Type}, prog A -> Prop :=
| af_Ret {A : Type} (a : A) : assignment_free (Ret a)
| af_Raise {A : Type} e : assignment_free (@Raise A e)
| af_Call {A X : Type} (c : call X) (k : X -> prog A) :
    (forall x, assignment_free (k x)) -> assignment_free (Call c k)
| af_Load {A : Type} x (k : val -> prog A) :
    (forall v, assignment_free (k v)) -> assignment_free (Load x k).

(** What the algorithms returned and what was shown: the answers of
    [run], and the state vectors handed to [sample_most_likely]. *)
Inductive result_step : Type :=
| Returned (algorithm : obj) (result : gmap string (list statevector))
| Sampled (v : statevector).

Definition result_call (ev : event) : option result_step :=
  match ev with
  | @Ev X c r =>
      match c in call X return except X -> option result_step with
      | algorithm_run alg _ => fun r => Returned alg <$> answer r
      | sample_most_likely v => fun _ => Some (Sampled v)
      | _ => fun _ => None
      end r
  | _ => None
  end.

(** The calls of cells 6 to 8 that build, configure and run the
    algorithms, with their answers. *)
Inductive setup_step : Type :=
| GotBackend (name : string) (backend : obj)
| MadeOptimizer (optimizer : obj)
| SetMaxiter (optimizer : obj) (maxiter : Z)
| GotNumQubits (operator : obj) (num_qubits : Z)
| MadeVarForm (num_qubits depth : Z) (entanglement : string) (var_form : obj)
| MadeAlgorithm (alg : algorithm) (made : obj)
| SetRandomSeed (alg : obj) (seed : Z)
| MadeQuantumInstance (backend : obj) (seed_simulator seed_transpiler : Z)
                      (quantum_instance : obj)
| RanAlgorithm (alg : obj) (quantum_instance : option obj).

Definition setup_call (ev : event) : option setup_step :=
  match ev with
  | @Ev X c r =>
      match c in call X return except X -> option setup_step with
      | BasicAer_get_backend name => fun r => GotBackend name <$> answer r
      | COBYLA => fun r => MadeOptimizer <$> answer r
      | set_options optimizer maxiter =>
          fun r => (fun _ => SetMaxiter optimizer maxiter) <$> answer r
      | operator_num_qubits op => fun r => GotNumQubits op <$> answer r
      | RY num_qubits depth entanglement =>
          fun r => MadeVarForm num_qubits depth entanglement <$> answer r
      | ExactEigensolver op k =>
          fun r => MadeAlgorithm (AlgExactEigensolver op k) <$> answer r
      | VQE op var_form optimizer =>
          fun r => MadeAlgorithm (AlgVQE op var_form optimizer) <$> answer r
      | QAOA op optimizer p =>
          fun r => MadeAlgorithm (AlgQAOA op optimizer p) <$> answer r
      | set_random_seed alg seed =>
          fun r => (fun _ => SetRandomSeed alg seed) <$> answer r
      | QuantumInstance backend seed_simulator seed_transpiler =>
          fun r => MadeQuantumInstance backend seed_simulator seed_transpiler
                   <$> answer r
      | algorithm_run alg quantum_instance =>
          fun r => (fun _ => RanAlgorithm alg quantum_instance) <$> answer r
      | _ => fun _ => None
      end r
  | _ => None
  end.

(** Why a run that produced the entries [evs] ended with the exception
    [e]: either one library call raised [e], or no library call raised
    and [e] comes from indexing, [result['eigvecs']] without that key or
    an index out of range. *)
Definition failure_cause (e : exn) (evs : list event) : Prop :=
  omap raised evs = [e] \/
  (omap raised evs = [] /\ (e = KeyError "eigvecs" \/ e = IndexError)).

(** What the entries [evs] of a call [print_result result] tell, by its
    outcome. *)
Definition print_result_report (result : gmap string (list statevector))
    (out : except unit) (evs : list event) : Prop :=
  match out with
  | inr _ =>
      omap raised evs = [] /\
      exists v, eigvecs_0 result = inr v /\ omap result_call evs = [Sampled v]
  | inl e => failure_cause e evs
  end.

(** Completed calls of [portfolio.portfolio_value]: the selection, the
    five parameters, and the value answered. *)
Definition valued (ev : event) : option (array * problem * Q) :=
  match ev with
  | @Ev X c r =>
      match c in call X return except X -> option (array * problem * Q) with
      | portfolio_portfolio_value x mu sigma q budget penalty =>
          fun r => pair (x, Problem mu sigma q budget penalty) <$> answer r
      | _ => fun _ => None
      end r
  | _ => None
  end.

(** What one completed [print_result] shows, as [(selection, value, rows)]:
    the most likely selection with its value, and the rows of the table.
    [shown_values] lists the [portfolio_value] calls behind it, with their
    answers; [shown_texts] the lines printed. *)
Definition shown_values (pb : problem) (t : list Q * Q * list (list Z * Q * Q))
    : list (array * problem * Q) :=
  (FloatArr (t.1.1), pb, t.1.2)
  :: ((fun row : list Z * Q * Q => (IntArr (row.1.1), pb, row.1.2)) <$> t.2).

Definition shown_texts (t : list Q * Q * list (list Z * Q * Q)) : list text :=
  StrFormat optimal_template [FArray (FloatArr (t.1.1)); FFloat (t.1.2)]
  :: Literal full_result_line :: Literal header_line :: Literal rule_line
  :: (row_text <$> t.2).

(** The values computed and the lines printed by a call of
    [print_result] that completed with the entries [evs]. *)
Definition print_result_shown (pb : problem) (out : except unit)
    (evs : list event) : Prop :=
  match out with
  | inr _ =>
      exists t, omap valued evs = shown_values pb t /\
                omap printed evs = shown_texts t
  | inl _ => True
  end.

(** ** A reference library

    One concrete library, used to run the notebook on examples: objects are
    numbered by the position of the call that creates them, the data
    provider yields fixed returns, and the three algorithms answer with
    fixed real state vectors over four qubits. *)
Module Reference.

Definition fresh (tr : list event) : obj := N.of_nat (length tr).

Definition floats (x : array) : list Q :=
  match x with
  | FloatArr a => a
  | IntArr a => inject_Z <$> a
  end.

Definition dot (a b : list Q) : Q :=
  foldr Qplus 0%Q (zip_with Qmult a b).

(** [q * x.sigma.x - mu.x + penalty * (sum(x) - budget)^2] *)
Definition value (x : list Q) (mu : list Q) (sigma : list (list Q))
    (q : Q) (budget penalty : Z) : Q :=
  let s := (foldr Qplus 0 x - inject_Z budget)%Q in
  Qred (q * dot x ((fun row => dot row x) <$> sigma) - dot mu x
        + inject_Z penalty * (s * s))%Q.

Definition square_norm (c : Q * Q) : Q := (c.1 * c.1 + c.2 * c.2)%Q.

Definition key_le (a b : Z * Q) : Prop := (a.2 <= b.2)%Q.

#[global] Instance key_le_dec : RelDecision key_le.
Proof.
  intros a b. unfold key_le.
  destruct (Qlt_le_dec (b.2) (a.2)) as [H|H]; [right|left]; [|exact H].
  intros H'. exact (Qlt_not_le _ _ H H').
Defined.

(** Indices ordered by ascending key. *)
Definition argsort (a : list Q) : list Z :=
  fst <$> merge_sort key_le (imap (fun i x => (Z.of_nat i, x)) a).

(** Index of the first entry of greatest key. *)
Definition argmax (a : list Q) : Z :=
  (foldr (fun ix best => if Qle_bool (best.2) (ix.2) then ix else best)
         (0, 0%Q) (imap (fun i x => (Z.of_nat i, x)) a)).1.

Definition bits (n : nat) (k : Z) : list Q :=
  (fun j => inject_Z (Z.b2z (Z.testbit k (Z.of_nat j)))) <$> seq 0 n.

Definition state (amplitudes : list Q) : statevector :=
  (fun a => (a, 0%Q)) <$> amplitudes.

Definition exact_state : statevector :=
  state (replicate 12 0%Q ++ [1%Q] ++ replicate 3 0%Q).

Definition variational_state : statevector :=
  state [0; 0; 0; 1 # 10; 0; 8 # 10; 2 # 10; 0; 0; 1 # 10; 4 # 10; 0; 3 # 10; 0; 0; 0]%Q.

Definition lib : library := fun tr X c =>
  match c in call X return except X with
  | py_import _ => inr tt
  | ipython_magic _ => inr tt
  | print _ => inr tt
  | IBMQ_load_account => inr (fresh tr)
  | datetime_datetime _ _ _ => inr (fresh tr)
  | RandomDataProvider _ _ _ => inr (fresh tr)
  | data_run _ => inr tt
  | get_period_return_mean_vector _ =>
      inr [15 # 1000; -(5 # 1000); 12 # 1000; 8 # 1000]%Q
  | get_period_return_covariance_matrix _ =>
      inr [[2 # 1000; 0; 1 # 1000; 0];
           [0; 3 # 1000; 0; 0];
           [1 # 1000; 0; 2 # 1000; 0];
           [0; 0; 0; 1 # 1000]]%Q
  | portfolio_get_operator _ _ _ _ _ => inr (fresh tr, 0%Q)
  | portfolio_portfolio_value x mu sigma q budget penalty =>
      inr (value (floats x) mu sigma q budget penalty)
  | sample_most_likely v =>
      inr (bits (Z.to_nat (Z.log2 (Z.of_nat (length v))))
                (argmax (square_norm <$> v)))
  | ExactEigensolver _ _ => inr (fresh tr)
  | VQE _ _ _ => inr (fresh tr)
  | QAOA _ _ _ => inr (fresh tr)
  | algorithm_run _ None => inr {[ "eigvecs" := [exact_state] ]}
  | algorithm_run _ (Some _) => inr {[ "eigvecs" := [variational_state] ]}
  | set_random_seed _ _ => inr tt
  | BasicAer_get_backend _ => inr (fresh tr)
  | COBYLA => inr (fresh tr)
  | set_options _ _ => inr tt
  | operator_num_qubits _ => inr 4
  | RY _ _ _ => inr (fresh tr)
  | QuantumInstance _ _ _ => inr (fresh tr)
  | np_abs v => inr ((fun c => Qabs (c.1)) <$> v)
  | ndarray_pow a e => inr ((fun x => Qred (x ^ e)) <$> a)
  | np_argsort a => inr (argsort a)
  end.

(** A library that raises [e] once the transcript has [bad] entries. *)
Definition failing_at (bad : nat) (e : exn) : library := fun tr X c =>
  if decide (length tr = bad) then inl e else lib tr X c.

(** The notebook run against [lib], and against a library that raises once
    the transcript has 30 entries (at the construction of the exact
    eigensolver). *)
Definition session := run lib notebook ∅ [].
Definition failed_session :=
  run (failing_at 30 (LibraryError "AquaError")) notebook ∅ [].

(** [print_result] on the variational state, in the namespace the notebook
    leaves behind. *)
Definition vqe_result : gmap string (list statevector) :=
  {[ "eigvecs" := [variational_state] ]}.
Definition table := run lib (print_result vqe_result) (session.1.2) [].

(** [print_result] before any cell has run, and on a result without the
    key ['eigvecs'] in the namespace the notebook leaves behind. *)
Definition early_table := run lib (print_result vqe_result) ∅ [].

End Reference.

(** * Properties of the Python helpers *)

Lemma chars_app s1 s2 : chars (s1 +:+ s2) = chars s1 ++ chars s2.
Proof.
  unfold chars. induction s1 as [|c s1 IH]; simpl; [done|]. by rewrite IH.
Qed.

Lemma chars_length s : String.length s = length (chars s).
Proof. induction s as [|c s IH]; simpl; [done|]. by rewrite IH. Qed.

Lemma chars_get s n : String.get n s = chars s !! n.
Proof.
  revert n. induction s as [|c s IH]; intros [|n]; simpl; try done.
Qed.

Lemma chars_spaces n : chars (Py.spaces n) = replicate n " "%char.
Proof. unfold chars, Py.spaces. apply list_ascii_of_string_of_list_ascii. Qed.

Lemma digit_binary c : digit c = 0 \/ digit c = 1.
Proof. unfold digit. destruct (Ascii.eqb c "1"); auto. Qed.

Lemma str_getitem_lookup s i c :
  chars s !! i = Some c -> Py.str_getitem s (Z.of_nat i) = inr c.
Proof.
  intros Hc. unfold Py.str_getitem.
  assert (i < length (chars s))%nat by (eapply lookup_lt_Some; eauto).
  rewrite chars_length.
  destruct (Z.ltb_spec (Z.of_nat i) 0); [lia|].
  destruct (Z.leb_spec 0 (Z.of_nat i)); [|lia].
  destruct (Z.ltb_spec (Z.of_nat i) (Z.of_nat (length (chars s)))); [|lia].
  simpl. by rewrite Nat2Z.id, chars_get, Hc.
Qed.

Lemma mapM_except_fmap {A B} (f : A -> except B) (g : A -> B) (l : list A) :
  Forall (fun a => f a = inr (g a)) l -> mapM f l = inr (g <$> l).
Proof.
  induction 1 as [|a l Ha _ IH]; simpl; [done|].
  rewrite Ha. simpl. by rewrite IH.
Qed.

(** The comprehension reads the first [n] characters of [s], last first. *)
Lemma comprehension_take (s : string) (n : nat) :
  (n <= String.length s)%nat ->
  mapM (fun i => c ← Py.str_getitem s i;
                 mret (if Ascii.eqb c "1" then 1 else 0))
       (Py.reversed (Py.range (Z.of_nat n)))
  = inr (reverse (digit <$> take n (chars s))).
Proof.
  intros Hn. rewrite chars_length in Hn.
  rewrite (mapM_except_fmap _
             (fun i => digit (default "0"%char (chars s !! Z.to_nat i)))).
  - f_equal. unfold Py.reversed, Py.range. rewrite fmap_reverse. f_equal.
    apply list_eq. intros j. rewrite !list_lookup_fmap.
    destruct (decide (j < n)%nat) as [Hj|Hj].
    + rewrite lookup_seqZ_lt by lia. rewrite lookup_take_lt by lia. simpl.
      replace (Z.to_nat (0 + Z.of_nat j)) with j by lia.
      destruct (lookup_lt_is_Some_2 (chars s) j) as [c Hc]; [lia|].
      by rewrite Hc.
    + rewrite lookup_seqZ_ge by lia. rewrite lookup_take_ge by lia. done.
  - unfold Py.reversed, Py.range. apply Forall_reverse, Forall_seqZ.
    intros i Hi. replace i with (Z.of_nat (Z.to_nat i)) at 1 by lia.
    destruct (lookup_lt_is_Some_2 (chars s) (Z.to_nat i)) as [c Hc]; [lia|].
    rewrite (str_getitem_lookup _ _ c Hc). rewrite Hc. done.
Qed.

Lemma rjust_length s n : (Z.to_nat n <= String.length (Py.rjust s n))%nat.
Proof.
  unfold Py.rjust. destruct (Z.leb_spec n (Z.of_nat (String.length s))); [lia|].
  rewrite !chars_length, chars_app, chars_spaces, length_app, length_replicate.
  rewrite chars_length in *. lia.
Qed.

Lemma index_to_selection_take i n :
  index_to_selection i n
  = inr (reverse (digit <$> take (Z.to_nat n) (chars (Py.rjust (Py.format_b i) n)))).
Proof.
  unfold index_to_selection.
  destruct (Z.le_gt_cases 0 n) as [Hn|Hn].
  - pose proof (comprehension_take (Py.rjust (Py.format_b i) n) (Z.to_nat n)
                  (rjust_length _ _)) as H.
    by rewrite Z2Nat.id in H.
  - unfold Py.range, Py.reversed. rewrite seqZ_nil by lia.
    replace (Z.to_nat n) with 0%nat by lia. done.
Qed.

Lemma index_to_selection_shape i n :
  exists x, index_to_selection i n = inr x /\
            length x = Z.to_nat n /\ binary x.
Proof.
  eexists. split; [apply index_to_selection_take|]. split.
  - rewrite length_reverse, length_fmap, length_take.
    pose proof (rjust_length (Py.format_b i) n) as H. rewrite chars_length in H. lia.
  - apply Forall_reverse, Forall_fmap, Forall_forall. intros c _. apply digit_binary.
Qed.

(** Binary digits *)

Lemma weighted_sum_double (x : list Z) : forall f g : nat -> Z -> Z,
  (forall j b, f j b = 2 * g j b) ->
  foldr Z.add 0 (imap f x) = 2 * foldr Z.add 0 (imap g x).
Proof.
  induction x as [|a x IH]; intros f g H; simpl; [lia|].
  rewrite H, (IH (f ∘ S) (g ∘ S)); [lia|]. intros j b. apply H.
Qed.

Lemma selection_value_cons b x :
  selection_value (b :: x) = b + 2 * selection_value x.
Proof.
  unfold selection_value. simpl. rewrite Z.mul_1_r. f_equal.
  apply weighted_sum_double. intros j c. simpl.
  rewrite Nat2Z.inj_succ, Z.pow_succ_r by lia. lia.
Qed.

Lemma selection_value_app_zeros x k :
  selection_value (x ++ replicate k 0) = selection_value x.
Proof.
  induction x as [|b x IH]; simpl.
  - induction k as [|k IH]; simpl; [done|].
    rewrite selection_value_cons, IH. done.
  - by rewrite !selection_value_cons, IH.
Qed.


Lemma chars_bin_pos_snoc p c :
  chars (Py.bin_pos p +:+ String c EmptyString) = chars (Py.bin_pos p) ++ [c].
Proof. by rewrite chars_app. Qed.

Lemma bin_pos_value p :
  selection_value (reverse (digit <$> chars (Py.bin_pos p))) = Z.pos p.
Proof.
  induction p as [p IH|p IH|]; simpl Py.bin_pos.
  - rewrite chars_bin_pos_snoc, fmap_app, reverse_app. simpl.
    rewrite selection_value_cons, IH. unfold digit. simpl. lia.
  - rewrite chars_bin_pos_snoc, fmap_app, reverse_app. simpl.
    rewrite selection_value_cons, IH. unfold digit. simpl. lia.
  - done.
Qed.

Lemma bin_pos_length p (n : nat) :
  Z.pos p < 2 ^ Z.of_nat n -> (length (chars (Py.bin_pos p)) <= n)%nat.
Proof.
  revert n. induction p as [p IH|p IH|]; intros n Hp; simpl Py.bin_pos.
  - destruct n as [|n]; [simpl in Hp; lia|].
    rewrite chars_bin_pos_snoc, length_app. simpl.
    rewrite Nat2Z.inj_succ, Z.pow_succ_r in Hp by lia.
    specialize (IH n). lia.
  - destruct n as [|n]; [simpl in Hp; lia|].
    rewrite chars_bin_pos_snoc, length_app. simpl.
    rewrite Nat2Z.inj_succ, Z.pow_succ_r in Hp by lia.
    specialize (IH n). lia.
  - destruct n as [|n]; [simpl in Hp; lia|]. simpl. lia.
Qed.

Lemma format_b_value i :
  0 <= i -> selection_value (reverse (digit <$> chars (Py.format_b i))) = i.
Proof.
  destruct i as [|p|p]; intros Hi; [done| |lia]. apply bin_pos_value.
Qed.

Lemma format_b_length i (n : nat) :
  (1 <= n)%nat -> 0 <= i < 2 ^ Z.of_nat n ->
  (length (chars (Py.format_b i)) <= n)%nat.
Proof.
  destruct i as [|p|p]; intros Hn Hi; [simpl; lia| |lia].
  apply bin_pos_length. lia.
Qed.

Lemma index_to_selection_value i n :
  1 <= n -> 0 <= i < 2 ^ n ->
  exists x, index_to_selection i n = inr x /\ selection_value x = i.
Proof.
  intros Hn Hi. eexists. split; [apply index_to_selection_take|].
  pose proof (format_b_length i (Z.to_nat n)) as Hlen.
  rewrite Z2Nat.id in Hlen by lia. specialize (Hlen ltac:(lia) Hi).
  unfold Py.rjust. rewrite chars_length.
  destruct (Z.leb_spec n (Z.of_nat (length (chars (Py.format_b i))))) as [H|H].
  - rewrite take_ge by lia. apply format_b_value. lia.
  - rewrite chars_app, chars_spaces, take_ge
      by (rewrite length_app, length_replicate; lia).
    rewrite fmap_app, reverse_app, fmap_replicate, reverse_replicate.
    change (digit " ") with 0.
    rewrite selection_value_app_zeros. apply format_b_value. lia.
Qed.

(** C2: for every num_assets >= 1 and every i with 0 <= i < 2^num_assets,
    [index_to_selection i num_assets] returns a vector of length num_assets
    with entries in {0, 1} whose entries x[j], weighted by 2^j, sum to i:
    the little-endian binary representation of i, the padding read as 0. *)
Theorem index_to_selection_binary_representation (i num_assets : Z) :
  1 <= num_assets -> 0 <= i < 2 ^ num_assets ->
  exists x, index_to_selection i num_assets = inr x /\
            Z.of_nat (length x) = num_assets /\ binary x /\
            selection_value x = i.
Proof.
  intros Hn Hi.
  destruct (index_to_selection_shape i num_assets) as (x & Hx & Hlen & Hbin).
  destruct (index_to_selection_value i num_assets Hn Hi) as (x' & Hx' & Hval).
  rewrite Hx in Hx'. injection Hx' as <-.
  exists x. repeat split; [done|lia|done|done].
Qed.

(** C10: for every num_assets >= 1 and every i >= 0, also beyond
    2^num_assets, [index_to_selection i num_assets] raises nothing and
    returns a vector of exactly num_assets entries, each 0 or 1. *)
Theorem index_to_selection_total (i num_assets : Z) :
  1 <= num_assets -> 0 <= i ->
  exists x, index_to_selection i num_assets = inr x /\
            Z.of_nat (length x) = num_assets /\ binary x.
Proof.
  intros Hn Hi.
  destruct (index_to_selection_shape i num_assets) as (x & Hx & Hlen & Hbin).
  exists x. repeat split; [done|lia|done].
Qed.

(** * Properties of [run] *)

Lemma run_bind {A B : Type} lib (p : prog A) (f : A -> prog B) g tr :
  run lib (bind p f) g tr =
  match run lib p g tr with
  | (tr1, g1, inr a) => run lib (f a) g1 tr1
  | (tr1, g1, inl e) => (tr1, g1, inl e)
  end.
Proof.
  revert B f g tr.
  induction p as [A a|A e|A X c k IH|A x k IH|A x v k IH|A body IHb handler IHh k IH];
    intros B f g tr; simpl.
  - done.
  - done.
  - destruct (lib tr X c); [done|]. apply IH.
  - destruct (g !! x); [|done]. apply IH.
  - apply IH.
  - destruct (run lib body g tr) as [[tr1 g1] [e|[]]].
    + destruct (run lib (handler e) g1 tr1) as [[tr2 g2] [e'|[]]]; [done|]. apply IH.
    + apply IH.
Qed.

Lemma run_mbind {A B : Type} lib (p : prog A) (f : A -> prog B) g tr :
  run lib (p ≫= f) g tr =
  match run lib p g tr with
  | (tr1, g1, inr a) => run lib (f a) g1 tr1
  | (tr1, g1, inl e) => (tr1, g1, inl e)
  end.
Proof. apply run_bind. Qed.

Lemma run_Call {A X : Type} lib (c : call X) (k : X -> prog A) g tr :
  run lib (Call c k) g tr =
  match lib tr _ c with
  | inl e => (tr ++ [Ev c (inl e)], g, inl e)
  | inr x => run lib (k x) g (tr ++ [Ev c (inr x)])
  end.
Proof. reflexivity. Qed.

Lemma run_Load_Some {A : Type} lib x (k : val -> prog A) g tr v :
  g !! x = Some v -> run lib (Load x k) g tr = run lib (k v) g tr.
Proof. intros H. simpl. by rewrite H. Qed.

Lemma triple_inv {A B C : Type} (a a' : A) (b b' : B) (c c' : C) :
  (a, b, c) = (a', b', c') -> a' = a /\ b' = b /\ c' = c.
Proof. by intros [= -> -> ->]. Qed.

Lemma run_outcome {A : Type} (r : list event * globals * except A) out :
  r.2 = out -> r = (r.1.1, r.1.2, out).
Proof. destruct r as [[tr g] out']. simpl. by intros ->. Qed.

(** * Programs without handlers *)

Lemma handler_free_bind {A B : Type} (p : prog A) (f : A -> prog B) :
  handler_free p -> (forall a, handler_free (f a)) -> handler_free (bind p f).
Proof.
  intros Hp Hf. induction Hp; simpl; try (constructor; auto); auto.
Qed.

Lemma handler_free_mbind {A B : Type} (p : prog A) (f : A -> prog B) :
  handler_free p -> (forall a, handler_free (f a)) -> handler_free (p ≫= f).
Proof. apply handler_free_bind. Qed.

Lemma handler_free_for {A : Type} (l : list A) (body : A -> prog unit) :
  (forall x, handler_free (body x)) -> handler_free (for_ l body).
Proof.
  intros Hbody. induction l as [|x l IH]; simpl; [constructor|].
  apply handler_free_mbind; auto.
Qed.

Ltac handler_free :=
  repeat first
    [ apply handler_free_mbind
    | apply handler_free_bind
    | apply handler_free_for
    | apply hf_Ret | apply hf_Raise | apply hf_Call | apply hf_Load | apply hf_Store
    | progress intros
    | match goal with
      | |- handler_free (match ?x with _ => _ end) => destruct x
      | |- handler_free (let '(_, _) := ?x in _) => destruct x
      end ].

Lemma handler_free_run {A : Type} (p : prog A) :
  handler_free p -> forall lib g tr tr' g' out,
  run lib p g tr = (tr', g', out) ->
  exists evs, tr' = tr ++ evs /\
    forall i ev e, evs !! i = Some ev -> raised ev = Some e ->
                   out = inl e /\ S i = length evs.
Proof.
  induction 1 as [A a|A e|A X c k _ IH|A x k _ IH|A x v k _ IH];
    intros lib g tr tr' g' out Hrun; simpl in Hrun.
  - simplify_eq. exists []. split; [by rewrite app_nil_r|]. by intros [].
  - simplify_eq. exists []. split; [by rewrite app_nil_r|]. by intros [].
  - destruct (lib tr X c) as [e|x].
    + simplify_eq. eexists. split; [done|].
      intros [|i] ev e' Hev Hraised; simplify_eq/=. done.
    + destruct (IH _ _ _ _ _ _ _ Hrun) as (evs & -> & Hevs).
      eexists (_ :: evs). split; [by rewrite <- app_assoc|].
      intros [|i] ev e' Hev Hraised; simplify_eq/=.
      destruct (Hevs _ _ _ Hev Hraised) as [-> <-]. done.
  - destruct (g !! x) as [v|].
    + eauto.
    + simplify_eq. exists []. split; [by rewrite app_nil_r|]. by intros [].
  - destruct (IH _ _ _ _ _ _ Hrun) as (evs & -> & Hevs).
    eexists (_ :: evs). split; [by rewrite <- app_assoc|].
    intros [|i] ev e' Hev Hraised; simplify_eq/=.
    destruct (Hevs _ _ _ Hev Hraised) as [-> <-]. done.
Qed.

(** * The reference library keeps numpy's promises *)

Lemma imap_indices {A : Type} (a : list A) (k : nat) :
  fst <$> imap (fun i x => (Z.of_nat (k + i), x)) a
  = seqZ (Z.of_nat k) (Z.of_nat (length a)).
Proof.
  revert k. induction a as [|x a IH]; intros k; [done|].
  rewrite seqZ_cons by (simpl; lia). csimpl. f_equal; [f_equal; lia|].
  rewrite (imap_ext _ (fun i y => (Z.of_nat (S k + i), y)))
    by (intros i y _; simpl; do 2 f_equal; lia).
  rewrite IH. f_equal; simpl length; lia.
Qed.

Lemma imap_entries {A : Type} (a : list A) :
  Forall (fun p => a !! Z.to_nat (p.1) = Some (p.2))
         (imap (fun i x => (Z.of_nat i, x)) a).
Proof.
  apply Forall_forall. intros [i x] Hin.
  apply elem_of_lookup_imap in Hin as (j & y & [= -> ->] & Hj).
  simpl. by rewrite Nat2Z.id.
Qed.

#[local] Instance key_le_total : Total Reference.key_le.
Proof.
  intros [i x] [j y]. unfold Reference.key_le. simpl.
  destruct (Qlt_le_dec y x) as [H|H]; [right; by apply Qlt_le_weak|by left].
Qed.

Lemma argsort_is_argsort a : is_argsort a (Reference.argsort a).
Proof.
  unfold is_argsort, Reference.argsort. split.
  - rewrite merge_sort_Permutation.
    pose proof (imap_indices a 0) as H. simpl in H. by rewrite H.
  - pose proof (imap_entries a) as Hentries.
    rewrite <- (merge_sort_Permutation Reference.key_le) in Hentries.
    pose proof (Sorted_merge_sort Reference.key_le
                  (imap (fun i x => (Z.of_nat i, x)) a)) as Hsorted.
    revert Hentries Hsorted.
    generalize (merge_sort Reference.key_le (imap (fun i x => (Z.of_nat i, x)) a)).
    intros l Hentries Hsorted.
    assert (omap (fun i => a !! Z.to_nat i) l.*1 = l.*2) as ->.
    { induction Hentries as [|[i x] l Hix _ IH]; [done|].
      csimpl in *. rewrite Hix. csimpl. f_equal. apply IH.
      by apply Sorted_inv in Hsorted as [? _]. }
    eapply Sorted_fmap; [|exact Hsorted].
    intros [i x] [j y] H. exact H.
Qed.

Lemma reference_numpy {A : Type} (p : prog A) g tr :
  Forall numpy_answer tr ->
  Forall numpy_answer (run Reference.lib p g tr).1.1.
Proof.
  revert g tr.
  induction p as [A a|A e|A X c k IH|A x k IH|A x v k IH|A body IHb handler IHh k IH];
    intros g tr Htr; simpl; try done.
  - destruct (Reference.lib tr X c) as [e|x] eqn:Hc; simpl.
    + apply Forall_app. split; [done|]. constructor; [|constructor].
      destruct c; simpl; try done; intros ? [=].
    + apply IH, Forall_app. split; [done|]. constructor; [|constructor].
      destruct c; simpl; try done; simpl in Hc; intros ? [= <-]; simplify_eq.
      * by rewrite length_fmap.
      * by rewrite length_fmap.
      * apply argsort_is_argsort.
  - destruct (g !! x); simpl; auto.
  - apply IH, Forall_app. split; [done|]. by constructor.
  - specialize (IHb g tr Htr).
    destruct (run Reference.lib body g tr) as [[tr1 g1] [e|[]]]; simpl in *; [|auto].
    specialize (IHh e g1 tr1 IHb).
    destruct (run Reference.lib (handler e) g1 tr1) as [[tr2 g2] [e'|[]]]; simpl in *; auto.
Qed.

(** * The transcript of [print_result] *)

Arguments index_to_selection : simpl never.
Arguments eigvecs_0 : simpl never.
Arguments Py.getitem : simpl never.
Arguments Py.reversed : simpl never.

(** One step of symbolic execution of a [run] equation [H]. *)
Ltac run_step H :=
  simpl in H;
  lazymatch type of H with
  | context [match ?x with _ => _ end] =>
      first [ match goal with E : x = _ |- _ => rewrite E in H end
            | let E := fresh "E" in destruct x eqn:E ];
      simplify_eq
  end.

Ltac run_all H := repeat run_step H; try (simpl in H; simplify_eq).

(** Close a goal [tr ++ ... = tr ++ ?evs /\ Forall P ?evs]. *)
Ltac transcript :=
  rewrite <- ?app_assoc; simpl;
  first [ reflexivity | rewrite app_nil_r; reflexivity | symmetry; apply app_nil_r ].

Lemma print_row_run lib g pb probabilities i tr tr' g' :
  bound g pb ->
  run lib (print_row probabilities i) g tr = (tr', g', inr tt) ->
  g' = g /\ exists row, row_for g probabilities i row /\ tr' = tr ++ row_events pb row.
Proof.
  intros (Hmu & Hsigma & Hq & Hbudget & Hpenalty) H.
  unfold print_row in H.
  run_all H.
  split; [done|]. eexists (_, _, _). split.
  - eexists. simpl. eauto.
  - by rewrite <- app_assoc.
Qed.

Lemma print_row_events lib g pb probabilities i tr tr' g' out :
  bound g pb ->
  run lib (print_row probabilities i) g tr = (tr', g', out) ->
  g' = g /\ exists evs, tr' = tr ++ evs /\ Forall (print_result_event pb) evs.
Proof.
  intros (Hmu & Hsigma & Hq & Hbudget & Hpenalty) H.
  unfold print_row in H. destruct pb as [mu sigma q budget penalty]. simpl in *.
  run_all H.
  all: split; [done|]; eexists; split; [transcript|].
  all: by repeat constructor.
Qed.

Lemma handler_free_print_row probabilities i :
  handler_free (print_row probabilities i).
Proof. unfold print_row, load_int, load_vec, load_mat, load_float, call_, lift. handler_free. Qed.

Opaque print_row.

Lemma table_loop_run lib g pb probabilities l : bound g pb -> forall tr tr' g',
  run lib (for_ l (print_row probabilities)) g tr = (tr', g', inr tt) ->
  g' = g /\ exists rows, Forall2 (row_for g probabilities) l rows /\
                         tr' = tr ++ (rows ≫= row_events pb).
Proof.
  intros Hg. induction l as [|i l IH]; intros tr tr' g' H; simpl in H.
  - simplify_eq. split; [done|]. exists []. split; [constructor|]. by rewrite app_nil_r.
  - rewrite run_mbind in H.
    destruct (run lib (print_row probabilities i) g tr) as [[tr1 g1] [e|[]]] eqn:Hrow;
      [done|].
    destruct (print_row_run _ _ _ _ _ _ _ _ Hg Hrow) as (-> & row & Hrow' & ->).
    destruct (IH _ _ _ H) as (-> & rows & Hrows & ->).
    split; [done|]. exists (row :: rows). split; [by constructor|].
    by rewrite <- app_assoc.
Qed.

Lemma table_loop_events lib g pb probabilities l : bound g pb -> forall tr tr' g' out,
  run lib (for_ l (print_row probabilities)) g tr = (tr', g', out) ->
  g' = g /\ exists evs, tr' = tr ++ evs /\ Forall (print_result_event pb) evs.
Proof.
  intros Hg. induction l as [|i l IH]; intros tr tr' g' out H; simpl in H.
  - simplify_eq. split; [done|]. exists []. split; [|constructor]. by rewrite app_nil_r.
  - rewrite run_mbind in H.
    destruct (run lib (print_row probabilities i) g tr) as [[tr1 g1] r] eqn:Hrow.
    destruct (print_row_events _ _ _ _ _ _ _ _ _ Hg Hrow) as (-> & evs & -> & Hevs).
    destruct r as [e|[]].
    + simplify_eq. split; [done|]. by exists evs.
    + destruct (IH _ _ _ _ H) as (-> & evs' & -> & Hevs').
      split; [done|]. exists (evs ++ evs'). split; [by rewrite <- app_assoc|].
      by apply Forall_app.
Qed.

Lemma print_result_run lib g result tr tr' g' :
  run lib (print_result result) g tr = (tr', g', inr tt) ->
  g' = g /\
  exists pb v selection value a probabilities sorted rows,
    eigvecs_0 result = inr v /\ bound g pb /\
    Forall2 (row_for g probabilities) (Py.reversed sorted) rows /\
    tr' = tr ++ print_result_transcript pb v selection value a probabilities sorted rows.
Proof.
  intros H. unfold print_result in H.
  repeat run_step H. simpl in H.
  match goal with
  | Hmu : g !! "mu" = Some (VVec ?mu), Hsigma : g !! "sigma" = Some (VMat ?sigma),
    Hq : g !! "q" = Some (VFloat ?q), Hb : g !! "budget" = Some (VInt ?b),
    Hp : g !! "penalty" = Some (VInt ?p) |- _ =>
      assert (bound g (Problem mu sigma q b p)) as Hg by done
  end.
  destruct (table_loop_run _ _ _ _ _ Hg _ _ _ H) as (-> & rows & Hrows & ->).
  repeat match goal with u : unit |- _ => destruct u end.
  split; [done|]. do 8 eexists. split; [reflexivity|]. split; [exact Hg|].
  split; [exact Hrows|].
  unfold print_result_transcript. rewrite <- !app_assoc. reflexivity.
Qed.

Lemma print_result_events lib g pb result tr tr' g' out :
  bound g pb ->
  run lib (print_result result) g tr = (tr', g', out) ->
  g' = g /\ exists evs, tr' = tr ++ evs /\ Forall (print_result_event pb) evs.
Proof.
  intros Hg H. pose proof Hg as (Hmu & Hsigma & Hq & Hbudget & Hpenalty).
  unfold print_result in H. destruct pb as [mu sigma q budget penalty]. simpl in *.
  repeat run_step H; try (simpl in H; simplify_eq).
  all: try (split; [done|]; eexists; split; [transcript|]; by repeat constructor).
  destruct (table_loop_events _ _ _ _ _ Hg _ _ _ _ H) as (-> & evs & -> & Hevs).
  split; [done|]. eexists. split; [rewrite <- !app_assoc; reflexivity|]. simpl.
  repeat (constructor; [done|]). exact Hevs.
Qed.

Lemma handler_free_print_result result : handler_free (print_result result).
Proof.
  unfold print_result, load_int, load_vec, load_mat, load_float, call_, lift.
  handler_free. apply handler_free_print_row.
Qed.

Opaque print_result.

Lemma print_result_events_bound lib g mu sigma q budget penalty result tr tr' g' out :
  g !! "mu" = Some (VVec mu) -> g !! "sigma" = Some (VMat sigma) ->
  g !! "q" = Some (VFloat q) -> g !! "budget" = Some (VInt budget) ->
  g !! "penalty" = Some (VInt penalty) ->
  run lib (print_result result) g tr = (tr', g', out) ->
  g' = g /\ exists evs, tr' = tr ++ evs /\
    Forall (print_result_event (Problem mu sigma q budget penalty)) evs.
Proof. intros. by eapply print_result_events. Qed.

(** * The table printed by [print_result] *)


Lemma selection_value_bounds x :
  binary x -> 0 <= selection_value x < 2 ^ Z.of_nat (length x).
Proof.
  induction 1 as [|b x Hb _ IH].
  - unfold selection_value. simpl. lia.
  - rewrite selection_value_cons. simpl length.
    rewrite Nat2Z.inj_succ, Z.pow_succ_r by lia. lia.
Qed.

Lemma selection_value_inj x y :
  binary x -> binary y -> length x = length y ->
  selection_value x = selection_value y -> x = y.
Proof.
  intros Hx. revert y. induction Hx as [|b x Hb _ IH]; intros y Hy Hlen Hval.
  - by destruct y.
  - destruct Hy as [|c y Hc Hy]; [done|].
    rewrite !selection_value_cons in Hval. simpl in Hlen.
    assert (b = c) as -> by lia.
    f_equal. apply IH; [done|lia|lia].
Qed.

Lemma elem_of_all_selections n x :
  x ∈ all_selections n <-> length x = n /\ binary x.
Proof.
  revert x. induction n as [|n IH]; intros x; simpl.
  - rewrite list_elem_of_singleton. split.
    + intros ->. split; [done|constructor].
    + intros [Hlen _]. by destruct x.
  - rewrite list_elem_of_bind. split.
    + intros (y & Hx & Hy). apply IH in Hy as [Hlen Hbin].
      apply elem_of_cons in Hx as [->|Hx]; [|apply list_elem_of_singleton in Hx as ->].
      * split; [simpl; lia|]. constructor; auto.
      * split; [simpl; lia|]. constructor; auto.
    + intros [Hlen Hbin]. destruct Hbin as [|b y Hb Hbin]; [done|].
      exists y. split.
      * destruct Hb as [-> | ->]; [left|right; left].
      * apply IH. split; [simpl in Hlen; lia|done].
Qed.

Lemma NoDup_all_selections n : NoDup (all_selections n).
Proof.
  induction n as [|n IH]; simpl.
  - apply NoDup_singleton.
  - apply NoDup_bind; [| |done].
    + intros x1 x2 y _ _ H1 H2.
      rewrite !elem_of_cons, elem_of_nil in H1, H2.
      destruct H1 as [->|[->|[]]], H2 as [H2|[H2|[]]]; congruence.
    + intros x _. apply NoDup_cons. split; [|apply NoDup_singleton].
      rewrite list_elem_of_singleton. congruence.
Qed.

Lemma selection_of_value n i :
  0 <= n -> 0 <= i < 2 ^ n -> selection_value (selection_of n i) = i.
Proof.
  intros Hn Hi. destruct (decide (n = 0)) as [->|Hn0].
  - assert (i = 0) as -> by (simpl in Hi; lia). reflexivity.
  - destruct (index_to_selection_value i n) as (x & Hx & Hval); [lia|done|].
    rewrite index_to_selection_take in Hx. injection Hx as <-. exact Hval.
Qed.

Lemma selection_of_shape n i :
  length (selection_of n i) = Z.to_nat n /\ binary (selection_of n i).
Proof.
  destruct (index_to_selection_shape i n) as (x & Hx & Hlen & Hbin).
  rewrite index_to_selection_take in Hx. injection Hx as <-. by split.
Qed.

Lemma selections_of_range n :
  0 <= n -> selection_of n <$> Py.range (2 ^ n) ≡ₚ all_selections (Z.to_nat n).
Proof.
  intros Hn. apply NoDup_Permutation.
  - apply NoDup_fmap_2_strong; [|apply NoDup_seqZ].
    intros i j Hi Hj Heq. unfold Py.range in *.
    apply elem_of_seqZ in Hi, Hj.
    rewrite <- (selection_of_value n i), <- (selection_of_value n j) by lia.
    by rewrite Heq.
  - apply NoDup_all_selections.
  - intros x. rewrite elem_of_all_selections, list_elem_of_fmap. split.
    + intros (i & -> & _). apply selection_of_shape.
    + intros [Hlen Hbin]. exists (selection_value x).
      pose proof (selection_value_bounds x Hbin) as Hb.
      rewrite Hlen, Z2Nat.id in Hb by done.
      split; [|unfold Py.range; apply elem_of_seqZ; lia].
      destruct (selection_of_shape n (selection_value x)) as [Hlen' Hbin'].
      apply selection_value_inj; [done|done|lia|].
      by rewrite selection_of_value.
Qed.

Lemma index_to_selection_of i n : index_to_selection i n = inr (selection_of n i).
Proof. apply index_to_selection_take. Qed.

Lemma omap_printed_rows pb (rows : list (list Z * Q * Q)) :
  omap printed (rows ≫= row_events pb) = row_text <$> rows.
Proof.
  induction rows as [|[[x value] probability] rows IH]; [done|].
  simpl. f_equal. apply IH.
Qed.

Lemma omap_table_row_texts (rows : list (list Z * Q * Q)) :
  omap table_row (row_text <$> rows) = rows.
Proof.
  induction rows as [|[[x value] probability] rows IH]; [done|].
  simpl. f_equal. apply IH.
Qed.

Lemma printed_print_result_transcript pb v selection value a probabilities sorted rows :
  omap printed
    (print_result_transcript pb v selection value a probabilities sorted rows)
  = StrFormat optimal_template [FArray (FloatArr selection); FFloat value]
    :: Literal full_result_line :: Literal header_line :: Literal rule_line
    :: (row_text <$> rows).
Proof.
  unfold print_result_transcript. rewrite omap_app, omap_printed_rows. reflexivity.
Qed.

Lemma table_rows_print_result_transcript pb v selection value a probabilities sorted rows :
  table_rows
    (print_result_transcript pb v selection value a probabilities sorted rows)
  = rows.
Proof.
  unfold table_rows. rewrite printed_print_result_transcript. simpl.
  apply omap_table_row_texts.
Qed.

Lemma Forall2_fmap_eq {A B C : Type} (f : A -> C) (h : B -> C) (l : list A) (k : list B) :
  Forall2 (fun x y => h y = f x) l k -> h <$> k = f <$> l.
Proof.
  induction 1 as [|x y l k Hxy _ IH]; csimpl; [done|]. by rewrite Hxy, IH.
Qed.

Lemma Forall2_omap_eq {A B C : Type} (f : A -> option C) (h : B -> C)
    (l : list A) (k : list B) :
  Forall2 (fun x y => f x = Some (h y)) l k -> omap f l = h <$> k.
Proof.
  induction 1 as [|x y l k Hxy _ IH]; csimpl; [done|]. rewrite Hxy. csimpl. by rewrite IH.
Qed.

Lemma omap_reverse_list {A B : Type} (f : A -> option B) (l : list A) :
  omap f (reverse l) = reverse (omap f l).
Proof.
  induction l as [|x l IH]; [done|].
  rewrite reverse_cons, omap_app, IH. simpl.
  destruct (f x); simpl; [by rewrite reverse_cons|by rewrite app_nil_r].
Qed.

Lemma getitem_lookup {A : Type} (a : list A) i x :
  0 <= i -> Py.getitem a i = inr x -> a !! Z.to_nat i = Some x.
Proof.
  intros Hi. unfold Py.getitem.
  destruct (Z.ltb_spec i 0); [lia|].
  destruct (_ && _); [|done]. destruct (a !! Z.to_nat i); congruence.
Qed.

Lemma Forall2_and_Forall_l {A B : Type} (Q : A -> Prop) (P : A -> B -> Prop)
    (l : list A) (k : list B) :
  Forall Q l -> Forall2 P l k -> Forall2 (fun x y => Q x /\ P x y) l k.
Proof.
  intros HQ HP. induction HP as [|x y l k Hxy _ IH]; [constructor|].
  apply Forall_cons in HQ as [Hx HQ]. constructor; auto.
Qed.

(** C7: the output of [print_result] has a fixed format.  A completed call
    prints, in this order: the line built from
    ['Optimal: selection {}, value {:.4f}'] with the most likely selection
    and its [portfolio_value]; the "Full result" banner, the header
    ['selection\tvalue\t\tprobability'] and a rule; then one row per index of
    [i_sorted], built from ['%10s\t%.4f\t\t%.4f'] with that index's
    selection vector, the [portfolio_value] the library returned for it,
    and its entry of [probabilities].  The transcript of the call is
    exactly [print_result_transcript]. *)
Theorem print_result_output lib g result tr tr' g' :
  run lib (print_result result) g tr = (tr', g', inr tt) ->
  exists pb v selection value a probabilities sorted rows,
    drop (length tr) tr' =
      print_result_transcript pb v selection value a probabilities sorted rows /\
    omap printed (drop (length tr) tr') =
      StrFormat optimal_template [FArray (FloatArr selection); FFloat value]
      :: Literal full_result_line :: Literal header_line :: Literal rule_line
      :: (row_text <$> rows) /\
    eigvecs_0 result = inr v /\ bound g pb /\
    Forall2 (row_for g probabilities) (Py.reversed sorted) rows.
Proof.
  intros Hrun.
  destruct (print_result_run _ _ _ _ _ _ Hrun)
    as (_ & pb & v & selection & value & a & probabilities & sorted & rows
        & Hv & Hg & Hrows & ->).
  exists pb, v, selection, value, a, probabilities, sorted, rows.
  rewrite drop_app_length, printed_print_result_transcript. done.
Qed.

(** C6: when [eigvecs[0]] of the result is a state vector of dimension
    2^num_assets and numpy keeps its promises on the calls made ([np.abs]
    and [**] keep the length, [np.argsort] returns the indices in ascending
    order of the entries), the rows of the "Full result" table list every
    binary selection of num_assets entries exactly once, in order of
    non-increasing probability, each row showing the entry of
    [probabilities = np.abs(eigvecs[0])**2] at the index its selection
    encodes. *)
Theorem full_result_table lib g result v n tr tr' g' :
  0 <= n ->
  g !! "num_assets" = Some (VInt n) ->
  eigvecs_0 result = inr v ->
  Z.of_nat (length v) = 2 ^ n ->
  Forall numpy_answer tr' ->
  run lib (print_result result) g tr = (tr', g', inr tt) ->
  let rows := table_rows (drop (length tr) tr') in
  rows.*1.*1 ≡ₚ all_selections (Z.to_nat n) /\
  NoDup (rows.*1.*1) /\
  Sorted (flip Qle) (rows.*2) /\
  exists a probabilities,
    Ev (np_abs v) (inr a) ∈ tr' /\
    Ev (ndarray_pow a 2) (inr probabilities) ∈ tr' /\
    Forall (fun row =>
              probabilities !! Z.to_nat (selection_value (row.1.1)) = Some (row.2))
           rows.
Proof.
  intros Hn Hnum Hv Hlen Hnumpy Hrun rows. subst rows.
  destruct (print_result_run _ _ _ _ _ _ Hrun)
    as (_ & pb & v' & selection & value & a & probabilities & sorted & rows
        & Hv' & Hg & Hrows & ->).
  rewrite Hv in Hv'. injection Hv' as <-.
  rewrite drop_app_length, table_rows_print_result_transcript.
  (* what numpy answered *)
  apply Forall_app in Hnumpy as [_ Hnumpy].
  unfold print_result_transcript in Hnumpy.
  apply Forall_app in Hnumpy as [Hnumpy _].
  repeat match type of Hnumpy with
         | Forall _ (_ :: _) => apply Forall_cons in Hnumpy as [? Hnumpy]
         end.
  repeat match goal with
         | H : numpy_answer (Ev _ _) |- _ => simpl in H; specialize (H _ eq_refl)
         | H : numpy_answer _ |- _ => clear H
         end.
  match goal with H : is_argsort _ _ |- _ => destruct H as [Hperm Hsorted] end.
  assert (Z.of_nat (length probabilities) = 2 ^ n) as Hsize by congruence.
  rewrite Hsize in Hperm.
  (* the rows, index by index *)
  assert (Forall (fun i => 0 <= i < 2 ^ n) (Py.reversed sorted)) as Hrange.
  { unfold Py.reversed. rewrite reverse_Permutation, Hperm.
    apply Forall_seqZ. lia. }
  assert (Forall2 (fun i row => row.1.1 = selection_of n i /\
                               probabilities !! Z.to_nat i = Some (row.2) /\
                               0 <= i < 2 ^ n)
                  (Py.reversed sorted) rows) as Hrows'.
  { eapply Forall2_impl; [exact (Forall2_and_Forall_l _ _ _ _ Hrange Hrows)|].
    intros i row (Hi & num_assets & Hnum' & Hsel & Hget).
    rewrite Hnum in Hnum'. injection Hnum' as <-.
    rewrite index_to_selection_of in Hsel. injection Hsel as Hsel.
    split; [done|]. split; [|done]. apply getitem_lookup; [lia|done]. }
  clear Hrows Hrange.
  assert (rows.*1.*1 = selection_of n <$> Py.reversed sorted) as Hsels.
  { rewrite <- list_fmap_compose. apply Forall2_fmap_eq.
    eapply Forall2_impl; [exact Hrows'|]. by intros i row (? & _). }
  assert (rows.*2 = omap (fun i => probabilities !! Z.to_nat i) (Py.reversed sorted))
    as Hprobs.
  { symmetry. apply Forall2_omap_eq.
    eapply Forall2_impl; [exact Hrows'|]. by intros i row (_ & ? & _). }
  assert (rows.*1.*1 ≡ₚ all_selections (Z.to_nat n)) as Hall.
  { rewrite Hsels. unfold Py.reversed. rewrite reverse_Permutation, Hperm.
    by apply selections_of_range. }
  split; [exact Hall|]. split; [rewrite Hall; apply NoDup_all_selections|].
  split.
  { rewrite Hprobs. unfold Py.reversed. rewrite omap_reverse_list.
    by apply Sorted_reverse. }
  exists a, probabilities. split; [|split].
  - apply elem_of_app. right. unfold print_result_transcript.
    apply elem_of_app. left. do 3 right. left.
  - apply elem_of_app. right. unfold print_result_transcript.
    apply elem_of_app. left. do 4 right. left.
  - eapply Forall2_Forall_r; [exact Hrows'|]. apply Forall_true.
    intros i row (-> & Hp & Hi). by rewrite selection_of_value.
Qed.

(** * The transcript of the notebook *)

Lemma print_result_event_silent {B : Type} (f : event -> option B) pb evs :
  (forall ev, print_result_event pb ev -> f ev = None) ->
  Forall (print_result_event pb) evs -> omap f evs = [].
Proof.
  intros Hf. induction 1 as [|ev evs Hev _ IH]; simpl; [done|].
  by rewrite (Hf _ Hev).
Qed.

Ltac silent := intros [? [] ?|]; simpl; tauto.


(** Look a name up in a namespace built by successive assignments. *)
Ltac lookup_global :=
  repeat (rewrite lookup_insert_ne by done); apply lookup_insert_eq.

(** Symbolic execution of the notebook.

    The transcript is kept abstract: when the [run] equation [H] has moved
    on to the transcript [tr ++ evs], that transcript is named, and every
    tracked fact [omap f tr = X] is replaced by the fact about the longer
    transcript. *)
Ltac track f :=
  let Hf := fresh "Hf" in
  assert (omap f (@nil event) = []) as Hf by reflexivity.

Ltac advance_fact Hf :=
  lazymatch type of Hf with
  | _ = _ ++ omap ?f [?ev] =>
      let v := eval lazy in (omap f [ev]) in
      change (omap f [ev]) with v in Hf
  | _ = _ ++ omap ?f ?evs =>
      try match goal with
          | Hevs : Forall (print_result_event _) evs |- _ =>
              rewrite (print_result_event_silent f _ evs ltac:(silent) Hevs) in Hf
          end
  end;
  rewrite ?app_nil_r in Hf.

Ltac advance H tr evs :=
  let tr' := fresh "tr" in
  set (tr' := tr ++ evs) in H;
  repeat match goal with
         | Hf : omap ?f tr = ?X |- _ =>
             let Hf' := fresh "Hf" in
             assert (omap f tr' = X ++ omap f evs) as Hf'
               by (subst tr'; rewrite omap_app, Hf; reflexivity);
             clear Hf; advance_fact Hf'
         end;
  clearbody tr'; try clear tr.

Ltac advance_run H :=
  lazymatch type of H with
  | run _ _ _ (?tr ++ ?evs) = _ => advance H tr evs
  | (?tr ++ ?evs, _, _) = _ => advance H tr evs
  end.

Ltac exec_step H :=
  lazymatch type of H with
  | run ?lib ?p ?g ?tr = _ =>
      let p' := eval hnf in p in
      lazymatch p' with
      | Ret ?a => change (run lib p g tr) with (tr, g, @inr exn _ a) in H
      | Raise ?e => change (run lib p g tr) with (tr, g, @inl exn _ e) in H
      | Call ?c ?k =>
          change (run lib p g tr) with (run lib (Call c k) g tr) in H;
          rewrite run_Call in H;
          destruct (lib tr _ c);
          repeat match goal with
                 | x : unit |- _ => destruct x
                 | x : (_ * _)%type |- _ => destruct x
                 end;
          advance_run H
      | Load ?x ?k =>
          change (run lib p g tr) with (run lib (Load x k) g tr) in H;
          erewrite run_Load_Some in H by lookup_global
      | Store ?x ?v ?k =>
          change (run lib p g tr)
            with (run lib k (<[x:=v]> g) (tr ++ [Assigned x v])) in H;
          advance_run H
      | _ =>
          let p'' := eval cbn [bind mbind prog_bind mret prog_ret] in p in
          lazymatch p'' with
          | print_result ?res =>
              let evs := fresh "evs" in let Hevs := fresh "Hevs" in
              change (run lib p g tr) with (run lib (print_result res) g tr) in H;
              eapply print_result_events_bound in H; [|lookup_global..];
              destruct H as (-> & evs & -> & Hevs)
          | bind (print_result ?res) ?k =>
              let tr1 := fresh "tr" in let g1 := fresh "g" in
              let r := fresh "r" in let Hpr := fresh "Hpr" in
              let evs := fresh "evs" in let Hevs := fresh "Hevs" in
              change (run lib p g tr) with (run lib (bind (print_result res) k) g tr) in H;
              rewrite run_bind in H;
              destruct (run lib (print_result res) g tr) as [[tr1 g1] r] eqn:Hpr;
              eapply print_result_events_bound in Hpr; [|lookup_global..];
              destruct Hpr as (-> & evs & -> & Hevs);
              destruct r as [?|[]];
              advance_run H
          end
      end
  end.

(** Replace every tracked projection of the final transcript by its value. *)
Ltac use_facts :=
  repeat match goal with
         | Hf : omap ?f ?tr = _ |- _ =>
             let o := fresh "o" in
             set (o := omap f tr) in *; clearbody o; subst o
         end.

Ltac exec H :=
  do 200 (try exec_step H);
  apply triple_inv in H as (-> & -> & H);
  lazymatch type of H with
  | ?x = _ => first [is_var x; subst x | discriminate H | clear H]
  end;
  use_facts.

Lemma print_result_values pb evs :
  Forall (print_result_event pb) evs ->
  Forall (fun c => c.2 = pb) (omap portfolio_value_call evs).
Proof.
  induction 1 as [|ev evs Hev _ IH]; simpl; [constructor|].
  destruct ev as [X c r|]; [|done].
  destruct c; simpl in *; try done. by constructor.
Qed.

Lemma print_result_values_forall (P : array * problem -> Prop) pb evs :
  (forall x, P (x, pb)) ->
  Forall (print_result_event pb) evs ->
  Forall P (omap portfolio_value_call evs).
Proof.
  intros HP Hevs. eapply Forall_impl; [by apply print_result_values|].
  intros [x pb'] Hpb. simpl in Hpb. subst pb'. apply HP.
Qed.

(** A [Forall] over the tracked list of [portfolio_value] calls. *)
Ltac project_forall :=
  rewrite ?Forall_app; cbn [app];
  repeat split;
  repeat first
    [ apply Forall_nil_2
    | apply Forall_cons_2
    | eapply print_result_values_forall; [|eassumption]; intros ?; cbn [snd] ].

(** C3: a completed run of the notebook builds exactly three algorithm
    objects, [ExactEigensolver(qubitOp, k=1)], [VQE(qubitOp, ry, cobyla)]
    and [QAOA(qubitOp, cobyla, 3)], all on the operator [qubitOp] returned
    by the one call of [portfolio.get_operator], and calls [run] on exactly
    these three, in this order. *)
Theorem three_algorithms_one_operator lib tr g :
  run lib notebook ∅ [] = (tr, g, inr tt) ->
  exists qubitOp exact_eigensolver ry cobyla vqe cobyla' qaoa,
    omap operator_built tr = [qubitOp] /\
    omap constructed tr =
      [(AlgExactEigensolver qubitOp 1, exact_eigensolver);
       (AlgVQE qubitOp ry cobyla, vqe);
       (AlgQAOA qubitOp cobyla' 3, qaoa)] /\
    omap ran tr = [exact_eigensolver; vqe; qaoa].
Proof.
  intros H. track operator_built. track constructed. track ran.
  exec H.
  do 7 eexists. repeat split; reflexivity.
Qed.

Lemma handler_free_notebook : handler_free notebook.
Proof.
  unfold notebook, cell1, cell2, cell3, cell4, cell6, cell7, cell8, cell9.
  unfold load_int, load_vec, load_mat, load_float, load_obj, load_strs, load_dict,
    call_, store.
  handler_free. all: apply handler_free_print_result.
Qed.

(** C8: the notebook has no [try/except], so in every run an exception
    raised by a library call is the outcome of the run, unchanged, and the
    raising call is the last entry of the transcript: no further call is
    made and no global is assigned after it. *)
Theorem library_exceptions_propagate lib tr g out :
  run lib notebook ∅ [] = (tr, g, out) ->
  handler_free notebook /\
  forall i ev e, tr !! i = Some ev -> raised ev = Some e ->
                 out = inl e /\ S i = length tr.
Proof.
  intros Hrun. split; [apply handler_free_notebook|].
  destruct (handler_free_run _ handler_free_notebook _ _ _ _ _ _ Hrun)
    as (evs & -> & Hevs).
  exact Hevs.
Qed.

(** * The theorems at concrete inputs

    [index_to_selection] at index 12 (inside the range) and 37 (beyond it)
    for four assets, and the notebook run against the reference library. *)

Lemma index_to_selection_binary_representation_witness :
  1 <= 4 /\ 0 <= 12 < 2 ^ 4 /\
  exists x, index_to_selection 12 4 = inr x /\
            Z.of_nat (length x) = 4 /\ binary x /\ selection_value x = 12.
Proof.
  assert (H1 : 1 <= 4) by lia. assert (H2 : 0 <= 12 < 2 ^ 4) by lia.
  exact (conj H1 (conj H2 (index_to_selection_binary_representation 12 4 H1 H2))).
Defined.

Lemma index_to_selection_total_witness :
  1 <= 4 /\ 0 <= 37 /\
  exists x, index_to_selection 37 4 = inr x /\
            Z.of_nat (length x) = 4 /\ binary x.
Proof.
  assert (H1 : 1 <= 4) by lia. assert (H2 : 0 <= 37) by lia.
  exact (conj H1 (conj H2 (index_to_selection_total 37 4 H1 H2))).
Defined.

Lemma reference_session_completes :
  run Reference.lib notebook ∅ []
  = (Reference.session.1.1, Reference.session.1.2, inr tt).
Proof. apply (run_outcome Reference.session). vm_compute. reflexivity. Qed.

Lemma reference_session_fails :
  run (Reference.failing_at 30 (LibraryError "AquaError")) notebook ∅ []
  = (Reference.failed_session.1.1, Reference.failed_session.1.2,
     inl (LibraryError "AquaError")).
Proof. apply (run_outcome Reference.failed_session). vm_compute. reflexivity. Qed.

Lemma reference_table_completes :
  run Reference.lib (print_result Reference.vqe_result) (Reference.session.1.2) []
  = (Reference.table.1.1, Reference.table.1.2, inr tt).
Proof. apply (run_outcome Reference.table). vm_compute. reflexivity. Qed.

Lemma three_algorithms_one_operator_witness :
  run Reference.lib notebook ∅ []
  = (Reference.session.1.1, Reference.session.1.2, inr tt) /\
  exists qubitOp exact_eigensolver ry cobyla vqe cobyla' qaoa,
    omap operator_built (Reference.session.1.1) = [qubitOp] /\
    omap constructed (Reference.session.1.1) =
      [(AlgExactEigensolver qubitOp 1, exact_eigensolver);
       (AlgVQE qubitOp ry cobyla, vqe);
       (AlgQAOA qubitOp cobyla' 3, qaoa)] /\
    omap ran (Reference.session.1.1) = [exact_eigensolver; vqe; qaoa].
Proof.
  exact (conj reference_session_completes
           (three_algorithms_one_operator _ _ _ reference_session_completes)).
Defined.

Lemma library_exceptions_propagate_witness :
  run (Reference.failing_at 30 (LibraryError "AquaError")) notebook ∅ []
  = (Reference.failed_session.1.1, Reference.failed_session.1.2,
     inl (LibraryError "AquaError")) /\
  handler_free notebook /\
  forall i ev e,
    Reference.failed_session.1.1 !! i = Some ev -> raised ev = Some e ->
    @inl exn unit (LibraryError "AquaError") = inl e /\
    S i = length (Reference.failed_session.1.1).
Proof.
  exact (conj reference_session_fails
           (library_exceptions_propagate _ _ _ _ reference_session_fails)).
Defined.

Lemma print_result_output_witness :
  run Reference.lib (print_result Reference.vqe_result) (Reference.session.1.2) []
  = (Reference.table.1.1, Reference.table.1.2, inr tt) /\
  exists pb v selection value a probabilities sorted rows,
    drop (length (@nil event)) (Reference.table.1.1) =
      print_result_transcript pb v selection value a probabilities sorted rows /\
    omap printed (drop (length (@nil event)) (Reference.table.1.1)) =
      StrFormat optimal_template [FArray (FloatArr selection); FFloat value]
      :: Literal full_result_line :: Literal header_line :: Literal rule_line
      :: (row_text <$> rows) /\
    eigvecs_0 Reference.vqe_result = inr v /\
    bound (Reference.session.1.2) pb /\
    Forall2 (row_for (Reference.session.1.2) probabilities) (Py.reversed sorted) rows.
Proof.
  exact (conj reference_table_completes
           (print_result_output _ _ _ _ _ _ reference_table_completes)).
Defined.

Lemma full_result_table_witness :
  0 <= 4 /\
  Reference.session.1.2 !! "num_assets" = Some (VInt 4) /\
  eigvecs_0 Reference.vqe_result = inr Reference.variational_state /\
  Z.of_nat (length Reference.variational_state) = 2 ^ 4 /\
  Forall numpy_answer (Reference.table.1.1) /\
  run Reference.lib (print_result Reference.vqe_result) (Reference.session.1.2) []
  = (Reference.table.1.1, Reference.table.1.2, inr tt) /\
  let rows := table_rows (drop (length (@nil event)) (Reference.table.1.1)) in
  rows.*1.*1 ≡ₚ all_selections (Z.to_nat 4) /\
  NoDup (rows.*1.*1) /\
  Sorted (flip Qle) (rows.*2) /\
  exists a probabilities,
    Ev (np_abs Reference.variational_state) (inr a) ∈ Reference.table.1.1 /\
    Ev (ndarray_pow a 2) (inr probabilities) ∈ Reference.table.1.1 /\
    Forall (fun row =>
              probabilities !! Z.to_nat (selection_value (row.1.1)) = Some (row.2))
           rows.
Proof.
  assert (H1 : 0 <= 4) by lia.
  assert (H2 : Reference.session.1.2 !! "num_assets" = Some (VInt 4))
    by (vm_compute; reflexivity).
  assert (H3 : eigvecs_0 Reference.vqe_result = inr Reference.variational_state)
    by (vm_compute; reflexivity).
  assert (H4 : Z.of_nat (length Reference.variational_state) = 2 ^ 4)
    by (vm_compute; reflexivity).
  assert (H5 : Forall numpy_answer (Reference.table.1.1))
    by (apply reference_numpy; constructor).
  exact (conj H1 (conj H2 (conj H3 (conj H4 (conj H5
           (conj reference_table_completes
              (full_result_table _ _ _ _ _ _ _ _ H1 H2 H3 H4 H5
                 reference_table_completes))))))).
Defined.

(** * Further properties of [index_to_selection] *)

Lemma bin_pos_bit_length p :
  Z.of_nat (length (chars (Py.bin_pos p))) = Z.log2 (Z.pos p) + 1.
Proof.
  induction p as [p IH|p IH|]; simpl Py.bin_pos.
  - rewrite chars_bin_pos_snoc, length_app. simpl length.
    rewrite Pos2Z.inj_xI, Z.log2_succ_double by lia. lia.
  - rewrite chars_bin_pos_snoc, length_app. simpl length.
    rewrite Pos2Z.inj_xO, Z.log2_double by lia. lia.
  - reflexivity.
Qed.

(** The first [m] binary digits of [p] spell [p] shifted right by the
    number of digits left out. *)
Lemma bin_pos_leading p (m : nat) :
  (m <= length (chars (Py.bin_pos p)))%nat ->
  selection_value (reverse (digit <$> take m (chars (Py.bin_pos p))))
  = Z.pos p / 2 ^ Z.of_nat (length (chars (Py.bin_pos p)) - m).
Proof.
  induction p as [p IH|p IH|]; simpl Py.bin_pos; intros Hm.
  - rewrite chars_bin_pos_snoc in *. rewrite length_app in *. simpl length in *.
    destruct (decide (m = length (chars (Py.bin_pos p)) + 1)%nat) as [->|Hne].
    + rewrite take_ge by (rewrite length_app; simpl; lia).
      rewrite <- chars_bin_pos_snoc.
      change (Py.bin_pos p +:+ "1") with (Py.bin_pos p~1).
      rewrite bin_pos_value, Nat.sub_diag. simpl. by rewrite Z.div_1_r.
    + rewrite take_app_le by lia. rewrite IH by lia.
      replace (length (chars (Py.bin_pos p)) + 1 - m)%nat
        with (S (length (chars (Py.bin_pos p)) - m)) by lia.
      rewrite Nat2Z.inj_succ, Z.pow_succ_r by lia.
      rewrite <- Z.div_div by lia. f_equal.
      rewrite Pos2Z.inj_xI. apply Z.div_unique with 1; lia.
  - rewrite chars_bin_pos_snoc in *. rewrite length_app in *. simpl length in *.
    destruct (decide (m = length (chars (Py.bin_pos p)) + 1)%nat) as [->|Hne].
    + rewrite take_ge by (rewrite length_app; simpl; lia).
      rewrite <- chars_bin_pos_snoc.
      change (Py.bin_pos p +:+ "0") with (Py.bin_pos p~0).
      rewrite bin_pos_value, Nat.sub_diag. simpl. by rewrite Z.div_1_r.
    + rewrite take_app_le by lia. rewrite IH by lia.
      replace (length (chars (Py.bin_pos p)) + 1 - m)%nat
        with (S (length (chars (Py.bin_pos p)) - m)) by lia.
      rewrite Nat2Z.inj_succ, Z.pow_succ_r by lia.
      rewrite <- Z.div_div by lia. f_equal.
      rewrite Pos2Z.inj_xO. apply Z.div_unique with 0; lia.
  - simpl in *. destruct m as [|[|m]]; [done|done|lia].
Qed.


(** X2: an index beyond the range is cut to its leading bits, not to its
    low ones.  For num_assets >= 0 and i >= 2^num_assets, the binary string
    of i is longer than num_assets, only its first num_assets characters
    are read, and the vector returned encodes i shifted right by the number
    of bits left out, that is i // 2^(bit_length(i) - num_assets). *)
Theorem index_to_selection_beyond_range (i num_assets : Z) :
  0 <= num_assets -> 2 ^ num_assets <= i ->
  exists x, index_to_selection i num_assets = inr x /\
            selection_value x = i / 2 ^ (Z.log2 i + 1 - num_assets).
Proof.
  intros Hn Hi. eexists. split; [apply index_to_selection_take|].
  assert (0 < i) as Hpos by (pose proof (Z.pow_pos_nonneg 2 num_assets); lia).
  destruct i as [|p|p]; [lia| |lia]. simpl Py.format_b.
  pose proof (bin_pos_bit_length p) as Hlen.
  assert (num_assets <= Z.log2 (Z.pos p)) as Hlog by (apply Z.log2_le_pow2; lia).
  unfold Py.rjust. rewrite chars_length.
  destruct (Z.leb_spec num_assets (Z.of_nat (length (chars (Py.bin_pos p))))); [|lia].
  rewrite bin_pos_leading by lia. do 2 f_equal. lia.
Qed.

(** X3: [index_to_selection] is a bijection from the indices
    0 .. 2^num_assets - 1 onto the binary vectors of num_assets entries.
    Every vector x of num_assets entries in {0, 1} is returned for the
    index sum(x[j] * 2^j), which lies in the range, and for no other index
    of the range. *)
Theorem index_to_selection_bijective (num_assets : Z) (x : list Z) :
  0 <= num_assets -> Z.of_nat (length x) = num_assets -> binary x ->
  0 <= selection_value x < 2 ^ num_assets /\
  index_to_selection (selection_value x) num_assets = inr x /\
  forall j, 0 <= j < 2 ^ num_assets ->
            index_to_selection j num_assets = inr x -> j = selection_value x.
Proof.
  intros Hn Hlen Hbin.
  pose proof (selection_value_bounds x Hbin) as Hb. rewrite Hlen in Hb.
  split; [exact Hb|]. split.
  - rewrite index_to_selection_of. f_equal.
    destruct (selection_of_shape num_assets (selection_value x)) as [Hlen' Hbin'].
    apply selection_value_inj; [done|done|lia|].
    by apply selection_of_value.
  - intros j Hj Hx. rewrite index_to_selection_of in Hx. injection Hx as <-.
    by rewrite selection_of_value.
Qed.

(** X4: the sign of the index is ignored when the string fits.  For
    0 < i < 2^(num_assets - 1), the string of -i is the one of i with a
    minus sign in front, which like the padding is read as 0:
    [index_to_selection (-i) num_assets] returns the vector of i. *)
Theorem index_to_selection_ignores_sign (i num_assets : Z) :
  0 < i < 2 ^ (num_assets - 1) ->
  index_to_selection (- i) num_assets = index_to_selection i num_assets.
Proof.
  intros Hi.
  assert (1 <= num_assets) as Hn.
  { destruct (Z.le_gt_cases 1 num_assets); [done|].
    rewrite Z.pow_neg_r in Hi by lia. lia. }
  rewrite !index_to_selection_take. do 2 f_equal.
  destruct i as [|p|p]; [lia| |lia]. simpl Py.format_b.
  pose proof (bin_pos_length p (Z.to_nat (num_assets - 1))) as Hlen.
  rewrite Z2Nat.id in Hlen by lia. specialize (Hlen ltac:(lia)).
  assert (chars ("-" +:+ Py.bin_pos p) = "-"%char :: chars (Py.bin_pos p)) as Hminus
    by reflexivity.
  unfold Py.rjust. rewrite !chars_length, Hminus. simpl length.
  set (len := length (chars (Py.bin_pos p))) in *.
  destruct (Z.leb_spec num_assets (Z.of_nat len)); [lia|].
  rewrite chars_app, chars_spaces.
  replace (Z.to_nat (num_assets - Z.of_nat len))
    with (S (Z.to_nat (num_assets - Z.of_nat (S len)))) by lia.
  rewrite replicate_S_end, <- app_assoc.
  destruct (Z.leb_spec num_assets (Z.of_nat (S len))).
  - replace (Z.to_nat (num_assets - Z.of_nat (S len))) with 0%nat by lia.
    rewrite Hminus. simpl app.
    rewrite !take_ge by (simpl; lia). done.
  - rewrite chars_app, chars_spaces, Hminus.
    rewrite !take_ge by (rewrite length_app, length_replicate; simpl; lia).
    rewrite !fmap_app. done.
Qed.

(** * Further properties of [print_result] *)

Lemma assignment_free_bind {A B : Type} (p : prog A) (f : A -> prog B) :
  assignment_free p -> (forall a, assignment_free (f a)) -> assignment_free (bind p f).
Proof.
  intros Hp Hf. induction Hp; simpl; try (constructor; auto); auto.
Qed.

Lemma assignment_free_mbind {A B : Type} (p : prog A) (f : A -> prog B) :
  assignment_free p -> (forall a, assignment_free (f a)) -> assignment_free (p ≫= f).
Proof. apply assignment_free_bind. Qed.

Lemma assignment_free_for {A : Type} (l : list A) (body : A -> prog unit) :
  (forall x, assignment_free (body x)) -> assignment_free (for_ l body).
Proof.
  intros Hbody. induction l as [|x l IH]; simpl; [constructor|].
  apply assignment_free_mbind; auto.
Qed.

Ltac assignment_free :=
  repeat first
    [ apply assignment_free_mbind
    | apply assignment_free_bind
    | apply assignment_free_for
    | apply af_Ret | apply af_Raise | apply af_Call | apply af_Load
    | progress intros
    | match goal with
      | |- assignment_free (match ?x with _ => _ end) => destruct x
      end ].

(** A program without assignments leaves the namespace as it found it. *)
Lemma assignment_free_run {A : Type} (p : prog A) :
  assignment_free p -> forall lib g tr tr' g' out,
  run lib p g tr = (tr', g', out) ->
  g' = g /\ exists evs, tr' = tr ++ evs /\ omap assignment evs = [].
Proof.
  induction 1 as [A a|A e|A X c k _ IH|A x k _ IH];
    intros lib g tr tr' g' out Hrun; simpl in Hrun.
  - simplify_eq. split; [done|]. exists []. by rewrite app_nil_r.
  - simplify_eq. split; [done|]. exists []. by rewrite app_nil_r.
  - destruct (lib tr X c) as [e|x].
    + simplify_eq. split; [done|]. by eexists.
    + destruct (IH _ _ _ _ _ _ _ Hrun) as (-> & evs & -> & Hevs).
      split; [done|]. eexists (_ :: evs). split; [by rewrite <- app_assoc|]. done.
  - destruct (g !! x) as [v|].
    + eauto.
    + simplify_eq. split; [done|]. exists []. by rewrite app_nil_r.
Qed.

Lemma getitem_error {A : Type} (a : list A) i e :
  Py.getitem a i = inl e -> e = IndexError.
Proof.
  unfold Py.getitem. destruct (_ && _); [|congruence].
  destruct (a !! _); congruence.
Qed.

Lemma eigvecs_0_error result e :
  eigvecs_0 result = inl e -> e = KeyError "eigvecs" \/ e = IndexError.
Proof.
  unfold eigvecs_0, Py.dict_getitem. destruct (result !! "eigvecs") as [l|]; simpl.
  - intros H. right. by eapply getitem_error.
  - intros [= <-]. by left.
Qed.

Lemma failure_cause_app e evs evs' :
  omap raised evs = [] -> failure_cause e evs' -> failure_cause e (evs ++ evs').
Proof. intros H. unfold failure_cause. rewrite omap_app, H. done. Qed.

Transparent print_row print_result.

Lemma assignment_free_print_result result : assignment_free (print_result result).
Proof.
  unfold print_result, print_row, load_int, load_vec, load_mat, load_float, call_, lift.
  assignment_free.
Qed.

(** X5: [print_result] on a result it cannot index.  When the result has
    no key ['eigvecs'], the call ends with [KeyError('eigvecs')]; when the
    list under that key is empty, with [IndexError].  In both cases no
    library call has been made, nothing is printed and the namespace is
    the one before the call. *)
Theorem print_result_without_eigvecs lib g result tr :
  (result !! "eigvecs" = None ->
   run lib (print_result result) g tr = (tr, g, inl (KeyError "eigvecs"))) /\
  (result !! "eigvecs" = Some [] ->
   run lib (print_result result) g tr = (tr, g, inl IndexError)).
Proof.
  split; intros H; unfold print_result, eigvecs_0, Py.dict_getitem; simpl;
    rewrite H; reflexivity.
Qed.

(** X6: [print_result] reads the globals mu, sigma, q, budget and penalty
    before it prints anything.  Called in a namespace where one of them is
    unbound (the cells that assign them have not run), it ends with an
    exception and has printed nothing, whatever the library answers. *)
Theorem print_result_needs_globals lib g result name tr tr' g' out :
  name ∈ ["mu"; "sigma"; "q"; "budget"; "penalty"] ->
  g !! name = None ->
  run lib (print_result result) g tr = (tr', g', out) ->
  (exists e, out = inl e) /\ omap printed (drop (length tr) tr') = [].
Proof.
  intros Hname Hg H. unfold print_result in H.
  repeat (apply elem_of_cons in Hname as [->|Hname]); [..|by apply elem_of_nil in Hname].
  all: run_all H.
  all: split; [by eexists|].
  all: rewrite ?drop_all, <- ?app_assoc, ?drop_app_length; reflexivity.
Qed.

(** X7: [print_result] assigns no global name.  Its [selection], [value],
    [probabilities], [i], [x] and [probability] are locals: in every call,
    completed or not, the namespace after the call is the namespace before
    it, and the call adds no assignment to the transcript. *)
Theorem print_result_keeps_namespace lib g result tr tr' g' out :
  run lib (print_result result) g tr = (tr', g', out) ->
  g' = g /\ omap assignment (drop (length tr) tr') = [].
Proof.
  intros Hrun.
  destruct (assignment_free_run _ (assignment_free_print_result result)
              _ _ _ _ _ _ Hrun) as (-> & evs & -> & Hevs).
  by rewrite drop_app_length.
Qed.

Lemma print_row_outcome lib g pb n probabilities i tr tr' g' out :
  bound g pb -> g !! "num_assets" = Some (VInt n) ->
  run lib (print_row probabilities i) g tr = (tr', g', out) ->
  exists evs, tr' = tr ++ evs /\
    match out with
    | inr _ => omap raised evs = []
    | inl e => failure_cause e evs
    end.
Proof.
  intros (Hmu & Hsigma & Hq & Hbudget & Hpenalty) Hnum H.
  destruct (index_to_selection_shape i n) as (x & Hx & _).
  unfold print_row in H.
  run_all H.
  all: eexists; split; [transcript|].
  all: unfold failure_cause; simpl; auto.
  match goal with E : Py.getitem _ _ = inl _ |- _ => apply getitem_error in E as -> end.
  auto.
Qed.

Opaque print_row.

Lemma table_loop_outcome lib g pb n probabilities l :
  bound g pb -> g !! "num_assets" = Some (VInt n) -> forall tr tr' g' out,
  run lib (for_ l (print_row probabilities)) g tr = (tr', g', out) ->
  exists evs, tr' = tr ++ evs /\
    match out with
    | inr _ => omap raised evs = []
    | inl e => failure_cause e evs
    end.
Proof.
  intros Hg Hnum. induction l as [|i l IH]; intros tr tr' g' out H; simpl in H.
  - simplify_eq. exists []. by rewrite app_nil_r.
  - rewrite run_mbind in H.
    destruct (run lib (print_row probabilities i) g tr) as [[tr1 g1] r] eqn:Hrow.
    destruct (print_row_events _ _ _ _ _ _ _ _ _ Hg Hrow) as (-> & _).
    destruct (print_row_outcome _ _ _ _ _ _ _ _ _ _ Hg Hnum Hrow) as (evs & -> & Hevs).
    destruct r as [e|[]].
    + simplify_eq. by exists evs.
    + destruct (IH _ _ _ _ H) as (evs' & -> & Hevs').
      exists (evs ++ evs'). split; [by rewrite <- app_assoc|].
      destruct out as [e|?].
      * by apply failure_cause_app.
      * by rewrite omap_app, Hevs, Hevs'.
Qed.

Lemma print_result_outcome lib g pb n result tr tr' g' out :
  bound g pb -> g !! "num_assets" = Some (VInt n) ->
  run lib (print_result result) g tr = (tr', g', out) ->
  exists evs, tr' = tr ++ evs /\
    match out with
    | inr _ => omap raised evs = []
    | inl e => failure_cause e evs
    end.
Proof.
  intros Hg Hnum H. pose proof Hg as (Hmu & Hsigma & Hq & Hbudget & Hpenalty).
  unfold print_result in H.
  repeat run_step H; try (simpl in H; simplify_eq).
  all: try match goal with
           | E : eigvecs_0 _ = inl _ |- _ => apply eigvecs_0_error in E
           end.
  all: try (eexists; split; [transcript|]; unfold failure_cause; simpl; tauto).
  destruct (table_loop_outcome _ _ _ _ _ _ Hg Hnum _ _ _ _ H) as (evs & -> & Hevs).
  eexists. split; [rewrite <- !app_assoc; reflexivity|].
  destruct out as [e|?].
  - by apply (failure_cause_app _ [_; _; _; _; _; _; _; _; _]).
  - simpl. exact Hevs.
Qed.

Opaque print_result.


Lemma omap_result_call_rows pb (rows : list (list Z * Q * Q)) :
  omap result_call (rows ≫= row_events pb) = [].
Proof. induction rows as [|[[x value] probability] rows IH]; [done|]. apply IH. Qed.

Lemma bound_inj g pb pb' : bound g pb -> bound g pb' -> pb = pb'.
Proof.
  destruct pb, pb'. intros (? & ? & ? & ? & ?) (? & ? & ? & ? & ?).
  simpl in *. congruence.
Qed.

Lemma omap_valued_rows pb (rows : list (list Z * Q * Q)) :
  omap valued (rows ≫= row_events pb)
  = (fun row : list Z * Q * Q => (IntArr (row.1.1), pb, row.1.2)) <$> rows.
Proof.
  destruct pb as [mu sigma q budget penalty].
  induction rows as [|[[x value] probability] rows IH]; [done|].
  csimpl. f_equal. apply IH.
Qed.

Lemma print_result_report_bound lib g mu sigma q budget penalty n result tr tr' g' out :
  g !! "mu" = Some (VVec mu) -> g !! "sigma" = Some (VMat sigma) ->
  g !! "q" = Some (VFloat q) -> g !! "budget" = Some (VInt budget) ->
  g !! "penalty" = Some (VInt penalty) -> g !! "num_assets" = Some (VInt n) ->
  run lib (print_result result) g tr = (tr', g', out) ->
  g' = g /\ exists evs, tr' = tr ++ evs /\
    Forall (print_result_event (Problem mu sigma q budget penalty)) evs /\
    print_result_report result out evs /\
    print_result_shown (Problem mu sigma q budget penalty) out evs.
Proof.
  intros Hmu Hsigma Hq Hbudget Hpenalty Hnum Hrun.
  assert (bound g (Problem mu sigma q budget penalty)) as Hg by done.
  destruct (print_result_events _ _ _ _ _ _ _ _ Hg Hrun) as (-> & evs & -> & Hevs).
  split; [done|]. exists evs. split; [done|]. split; [done|].
  destruct (print_result_outcome _ _ _ _ _ _ _ _ _ Hg Hnum Hrun) as (evs' & Heq & Hout).
  apply app_inv_head in Heq as <-.
  destruct out as [e|[]]; [by split|].
  destruct (print_result_run _ _ _ _ _ _ Hrun)
    as (_ & pb & v & selection & value & a & probabilities & sorted & rows
        & Hv & Hg' & _ & Heq).
  apply app_inv_head in Heq as ->.
  assert (pb = Problem mu sigma q budget penalty) as -> by (by eapply bound_inj).
  split; [split; [exact Hout|]|].
  - exists v. split; [done|].
    unfold print_result_transcript. rewrite omap_app, omap_result_call_rows. reflexivity.
  - exists (selection, value, rows). split.
    + unfold print_result_transcript. rewrite omap_app, omap_valued_rows. reflexivity.
    + apply printed_print_result_transcript.
Qed.

(** The selections of the table, by the index [np.argsort] answered. *)
Lemma table_selections_by_index lib g result v n tr tr' g' :
  g !! "num_assets" = Some (VInt n) ->
  eigvecs_0 result = inr v ->
  Forall numpy_answer tr' ->
  run lib (print_result result) g tr = (tr', g', inr tt) ->
  exists sorted,
    sorted ≡ₚ Py.range (Z.of_nat (length v)) /\
    (table_rows (drop (length tr) tr')).*1.*1 = selection_of n <$> Py.reversed sorted.
Proof.
  intros Hnum Hv Hnumpy Hrun.
  destruct (print_result_run _ _ _ _ _ _ Hrun)
    as (_ & pb & v' & selection & value & a & probabilities & sorted & rows
        & Hv' & Hg & Hrows & ->).
  rewrite Hv in Hv'. injection Hv' as <-.
  rewrite drop_app_length, table_rows_print_result_transcript.
  apply Forall_app in Hnumpy as [_ Hnumpy].
  unfold print_result_transcript in Hnumpy.
  apply Forall_app in Hnumpy as [Hnumpy _].
  repeat match type of Hnumpy with
         | Forall _ (_ :: _) => apply Forall_cons in Hnumpy as [? Hnumpy]
         end.
  repeat match goal with
         | H : numpy_answer (Ev _ _) |- _ => simpl in H; specialize (H _ eq_refl)
         | H : numpy_answer _ |- _ => clear H
         end.
  match goal with H : is_argsort _ _ |- _ => destruct H as [Hperm _] end.
  exists sorted. split.
  { replace (length v) with (length probabilities) by congruence. exact Hperm. }
  rewrite <- list_fmap_compose. apply Forall2_fmap_eq.
  eapply Forall2_impl; [exact Hrows|].
  intros i row (num_assets & Hnum' & Hsel & _).
  rewrite Hnum in Hnum'. injection Hnum' as <-.
  rewrite index_to_selection_of in Hsel. by injection Hsel as ->.
Qed.

Lemma length_all_selections n :
  0 <= n -> Z.of_nat (length (all_selections (Z.to_nat n))) = 2 ^ n.
Proof.
  intros Hn. rewrite <- (selections_of_range n Hn), length_fmap.
  unfold Py.range. rewrite length_seqZ.
  pose proof (Z.pow_pos_nonneg 2 n). lia.
Qed.

(** X9: when numpy keeps its promises, the "Full result" table of a
    completed [print_result] has exactly one row per entry of
    [eigvecs[0]], whatever the length of that vector; and the selections
    of its rows are pairwise distinct if and only if the vector has at
    most 2^num_assets entries.  A longer vector yields rows that repeat a
    selection. *)
Theorem full_result_table_rows lib g result v n tr tr' g' :
  0 <= n ->
  g !! "num_assets" = Some (VInt n) ->
  eigvecs_0 result = inr v ->
  Forall numpy_answer tr' ->
  run lib (print_result result) g tr = (tr', g', inr tt) ->
  let rows := table_rows (drop (length tr) tr') in
  length rows = length v /\
  (NoDup (rows.*1.*1) <-> Z.of_nat (length v) <= 2 ^ n).
Proof.
  intros Hn Hnum Hv Hnumpy Hrun rows. subst rows.
  destruct (table_selections_by_index _ _ _ _ _ _ _ _ Hnum Hv Hnumpy Hrun)
    as (sorted & Hperm & Hsels).
  assert (length (table_rows (drop (length tr) tr')) = length v) as Hlen.
  { rewrite <- (length_fmap fst), <- (length_fmap fst), Hsels, length_fmap.
    unfold Py.reversed. rewrite length_reverse, Hperm.
    unfold Py.range. rewrite length_seqZ. lia. }
  split; [exact Hlen|]. rewrite Hsels. split.
  - intros Hnodup.
    assert (selection_of n <$> Py.reversed sorted ⊆+ all_selections (Z.to_nat n)) as Hsub.
    { apply NoDup_submseteq; [done|]. intros x Hx.
      apply list_elem_of_fmap in Hx as (i & -> & _).
      apply elem_of_all_selections, selection_of_shape. }
    apply submseteq_length in Hsub.
    rewrite <- Hsels, !length_fmap, Hlen in Hsub.
    rewrite <- (length_all_selections n Hn). lia.
  - intros Hsize. apply NoDup_fmap_2_strong.
    + intros i j Hi Hj Heq. unfold Py.reversed in Hi, Hj.
      rewrite elem_of_reverse, Hperm in Hi, Hj. unfold Py.range in *.
      apply elem_of_seqZ in Hi, Hj.
      rewrite <- (selection_of_value n i), <- (selection_of_value n j) by lia.
      by rewrite Heq.
    + unfold Py.reversed. rewrite reverse_Permutation, Hperm. apply NoDup_seqZ.
Qed.

(** * The notebook, call by call *)

(** Symbolic execution that also keeps what each [print_result] reports:
    the state vector it showed when it completed, the cause when it
    failed. *)
Ltac report_fact Hf :=
  lazymatch type of Hf with
  | _ = _ ++ omap ?f ?evs =>
      first [ match goal with E : omap f evs = _ |- _ => rewrite E in Hf end
            | match goal with
              | Hevs : Forall (print_result_event _) evs |- _ =>
                  rewrite (print_result_event_silent f _ evs ltac:(silent) Hevs) in Hf
              end
            | idtac ]
  end;
  rewrite ?app_nil_r in Hf.

Ltac report_advance H :=
  lazymatch type of H with
  | context [?tr ++ ?evs] =>
      let tr' := fresh "tr" in
      set (tr' := tr ++ evs) in H;
      repeat match goal with
             | Hf : omap ?f tr = ?X |- _ =>
                 let Hf' := fresh "Hf" in
                 assert (omap f tr' = X ++ omap f evs) as Hf'
                   by (subst tr'; rewrite omap_app, Hf; reflexivity);
                 clear Hf; report_fact Hf'
             end;
      clearbody tr'; try clear tr
  end.

Ltac report_step H :=
  lazymatch type of H with
  | run ?lib ?p ?g ?tr = _ =>
      let p' := eval hnf in p in
      lazymatch p' with
      | Ret _ => exec_step H
      | Raise _ => exec_step H
      | Call _ _ => exec_step H
      | Load _ _ => exec_step H
      | Store _ _ _ => exec_step H
      | _ =>
          let p'' := eval cbn [bind mbind prog_bind mret prog_ret] in p in
          lazymatch p'' with
          | bind (print_result ?res) ?k =>
              let tr1 := fresh "tr" in let g1 := fresh "g" in
              let r := fresh "r" in let Hpr := fresh "Hpr" in
              let evs := fresh "evs" in let Hevs := fresh "Hevs" in
              let Hrep := fresh "Hrep" in let Hshown := fresh "Hshown" in
              change (run lib p g tr) with (run lib (bind (print_result res) k) g tr) in H;
              rewrite run_bind in H;
              destruct (run lib (print_result res) g tr) as [[tr1 g1] r] eqn:Hpr;
              eapply print_result_report_bound in Hpr; [|lookup_global..];
              destruct Hpr as (-> & evs & -> & Hevs & Hrep & Hshown);
              destruct r as [?|[]];
              cbn beta iota delta [print_result_report print_result_shown]
                in Hrep, Hshown;
              [| let v := fresh "v" in let Hv := fresh "Hv" in
                 let t := fresh "t" in
                 destruct Hrep as (? & v & Hv & ?);
                 destruct Hshown as (t & ? & ?) ];
              report_advance H
          end
      end
  end.

Ltac report_exec H :=
  do 200 (try report_step H);
  apply triple_inv in H as (-> & -> & H);
  lazymatch type of H with
  | ?x = _ => first [is_var x; subst x | discriminate H | clear H]
  end;
  use_facts.

(** What a completed run of the notebook did, library answer by library
    answer: the calls to the data provider, the one call of
    [portfolio.get_operator], the assignments to the names of the problem,
    and what the three calls of [print_result] computed and printed. *)
Lemma completed_run lib tr g :
  run lib notebook ∅ [] = (tr, g, inr tt) ->
  exists start end_ data mu sigma t1 t2 t3,
    omap data_call tr =
      [MadeDatetime 2016 1 1 start;
       MadeDatetime 2016 1 30 end_;
       MadeProvider ["TICKER0"; "TICKER1"; "TICKER2"; "TICKER3"] start end_ data;
       RanProvider data;
       GotMeanVector data mu;
       GotCovarianceMatrix data sigma] /\
    omap get_operator_call tr = [Problem mu sigma (1 # 2) 2 4] /\
    omap (assigned "num_assets") tr = [VInt 4] /\
    omap (assigned "mu") tr = [VVec mu] /\
    omap (assigned "sigma") tr = [VMat sigma] /\
    omap (assigned "q") tr = [VFloat (1 # 2)] /\
    omap (assigned "budget") tr = [VInt 2] /\
    omap (assigned "penalty") tr = [VInt 4] /\
    omap valued tr =
      shown_values (Problem mu sigma (1 # 2) 2 4) t1
      ++ shown_values (Problem mu sigma (1 # 2) 2 4) t2
      ++ shown_values (Problem mu sigma (1 # 2) 2 4) t3 /\
    omap printed tr = shown_texts t1 ++ shown_texts t2 ++ shown_texts t3.
Proof.
  intros H.
  track data_call. track get_operator_call.
  track (assigned "num_assets"). track (assigned "mu"). track (assigned "sigma").
  track (assigned "q"). track (assigned "budget"). track (assigned "penalty").
  track valued. track printed.
  report_exec H.
  do 8 eexists. repeat split; rewrite <- ?app_assoc; reflexivity.
Qed.


(** C9: the notebook fixes [num_assets] to 4, [budget] to
    [int(num_assets / 2)], which is 2, and [penalty] to [num_assets], and
    passes these constants to [get_operator] and to [portfolio_value].  In
    every run the three names are assigned nothing else and every call of
    either function carries budget 2 and penalty 4.  In a completed run
    each of the three names is assigned exactly once, [get_operator] is
    called once, with this budget and penalty, and so is
    [portfolio_value] for every selection the three calls of
    [print_result] show, the most likely one included: at least three
    calls. *)
Theorem budget_and_penalty_constants lib tr g out :
  run lib notebook ∅ [] = (tr, g, out) ->
  let num_assets := 4 in
  let budget := Py.int (Py.truediv num_assets 2) in
  let fixed pb := problem_budget pb = budget /\ problem_penalty pb = num_assets in
  budget = 2 /\
  Forall (eq (VInt num_assets)) (omap (assigned "num_assets") tr) /\
  Forall (eq (VInt budget)) (omap (assigned "budget") tr) /\
  Forall (eq (VInt num_assets)) (omap (assigned "penalty") tr) /\
  Forall fixed (omap get_operator_call tr) /\
  Forall (fun c => fixed (c.2)) (omap portfolio_value_call tr) /\
  (out = inr tt ->
   omap (assigned "num_assets") tr = [VInt num_assets] /\
   omap (assigned "budget") tr = [VInt budget] /\
   omap (assigned "penalty") tr = [VInt num_assets] /\
   exists pb t1 t2 t3,
     fixed pb /\
     omap get_operator_call tr = [pb] /\
     omap valued tr = shown_values pb t1 ++ shown_values pb t2 ++ shown_values pb t3).
Proof.
  intros H num_assets budget fixed.
  assert (budget = 2 /\
          Forall (eq (VInt num_assets)) (omap (assigned "num_assets") tr) /\
          Forall (eq (VInt budget)) (omap (assigned "budget") tr) /\
          Forall (eq (VInt num_assets)) (omap (assigned "penalty") tr) /\
          Forall fixed (omap get_operator_call tr) /\
          Forall (fun c => fixed (c.2)) (omap portfolio_value_call tr))
    as (H1 & H2 & H3 & H4 & H5 & H6).
  { track (assigned "num_assets"). track (assigned "budget").
    track (assigned "penalty").
    track get_operator_call. track portfolio_value_call.
    exec H.
    all: split; [reflexivity|].
    all: repeat split; project_forall; done. }
  do 6 (split; [assumption|]).
  intros ->.
  destruct (completed_run _ _ _ H)
    as (start & end_ & data & mu & sigma & t1 & t2 & t3 & _ & Hop & Hnum & _ & _
        & _ & Hbudget & Hpenalty & Hvalued & _).
  split; [exact Hnum|]. split; [exact Hbudget|]. split; [exact Hpenalty|].
  by exists (Problem mu sigma (1 # 2) 2 4), t1, t2, t3.
Qed.

(** C5: the mu and sigma given to [portfolio.get_operator] come from the
    library's random data provider and from nowhere else.  A completed run
    makes exactly these calls to the data provider, in this order: a
    [RandomDataProvider] is built over the four tickers TICKER0..TICKER3
    (one per asset) from 2016-01-01 to 2016-01-30, [run] is called on it,
    then [get_period_return_mean_vector] and
    [get_period_return_covariance_matrix]; and [get_operator] is called
    once, on the two answers, which are also the only values assigned to
    [mu] and [sigma].  In every run, completed or not, in which
    [get_operator] is called, the calls to the data provider are exactly
    these and [get_operator] takes their answers. *)
Theorem returns_come_from_random_data_provider lib tr g out :
  run lib notebook ∅ [] = (tr, g, out) ->
  Forall (fun pb => exists start end_ data,
            omap data_call tr =
              [MadeDatetime 2016 1 1 start;
               MadeDatetime 2016 1 30 end_;
               MadeProvider ["TICKER0"; "TICKER1"; "TICKER2"; "TICKER3"]
                            start end_ data;
               RanProvider data;
               GotMeanVector data (problem_mu pb);
               GotCovarianceMatrix data (problem_sigma pb)])
         (omap get_operator_call tr) /\
  (out = inr tt ->
   exists start end_ data pb,
     omap data_call tr =
       [MadeDatetime 2016 1 1 start;
        MadeDatetime 2016 1 30 end_;
        MadeProvider ["TICKER0"; "TICKER1"; "TICKER2"; "TICKER3"]
                     start end_ data;
        RanProvider data;
        GotMeanVector data (problem_mu pb);
        GotCovarianceMatrix data (problem_sigma pb)] /\
     omap get_operator_call tr = [pb] /\
     omap (assigned "mu") tr = [VVec (problem_mu pb)] /\
     omap (assigned "sigma") tr = [VMat (problem_sigma pb)]).
Proof.
  intros H. split.
  - track get_operator_call. track data_call.
    exec H.
    all: project_forall.
    all: do 3 eexists; reflexivity.
  - intros ->.
    destruct (completed_run _ _ _ H)
      as (start & end_ & data & mu & sigma & t1 & t2 & t3 & Hdata & Hop & _ & Hmu
          & Hsigma & _).
    by exists start, end_, data, (Problem mu sigma (1 # 2) 2 4).
Qed.

(** X10: how a completed run configures the algorithms.  The exact
    eigensolver is run without a quantum instance.  VQE is built on
    [RY(qubitOp.num_qubits, depth=3, entanglement='full')] and on a COBYLA
    optimizer whose [maxiter] was set to 500; QAOA on a second COBYLA
    optimizer, [maxiter] set to 250.  Each of the two gets [random_seed]
    50 after it is built and before it is run, and is run on a quantum
    instance of its own, made with both seeds 50 on the backend
    ['statevector_simulator'] fetched in the same cell.  These are all the
    calls that build, configure and run algorithms, in this order. *)
Theorem algorithms_configuration lib tr g :
  run lib notebook ∅ [] = (tr, g, inr tt) ->
  exists qubitOp exact_eigensolver backend cobyla num_qubits ry vqe quantum_instance
         backend' cobyla' qaoa quantum_instance',
    omap operator_built tr = [qubitOp] /\
    omap setup_call tr =
      [MadeAlgorithm (AlgExactEigensolver qubitOp 1) exact_eigensolver;
       RanAlgorithm exact_eigensolver None;
       GotBackend "statevector_simulator" backend;
       MadeOptimizer cobyla;
       SetMaxiter cobyla 500;
       GotNumQubits qubitOp num_qubits;
       MadeVarForm num_qubits 3 "full" ry;
       MadeAlgorithm (AlgVQE qubitOp ry cobyla) vqe;
       SetRandomSeed vqe 50;
       MadeQuantumInstance backend 50 50 quantum_instance;
       RanAlgorithm vqe (Some quantum_instance);
       GotBackend "statevector_simulator" backend';
       MadeOptimizer cobyla';
       SetMaxiter cobyla' 250;
       MadeAlgorithm (AlgQAOA qubitOp cobyla' 3) qaoa;
       SetRandomSeed qaoa 50;
       MadeQuantumInstance backend' 50 50 quantum_instance';
       RanAlgorithm qaoa (Some quantum_instance')].
Proof.
  intros H. track operator_built. track setup_call.
  exec H.
  do 12 eexists. split; reflexivity.
Qed.

(** X11: each [print_result] of a completed run shows the result of the
    algorithm run just before it.  The global [result] is assigned three
    times; the state vectors handed to [sample_most_likely] are, in order
    and interleaved with the runs, [eigvecs[0]] of what the exact
    eigensolver, VQE and QAOA returned. *)
Theorem print_result_shows_each_run lib tr g :
  run lib notebook ∅ [] = (tr, g, inr tt) ->
  exists exact_eigensolver vqe qaoa result1 result2 result3 v1 v2 v3,
    omap ran tr = [exact_eigensolver; vqe; qaoa] /\
    omap result_call tr =
      [Returned exact_eigensolver result1; Sampled v1;
       Returned vqe result2; Sampled v2;
       Returned qaoa result3; Sampled v3] /\
    omap (assigned "result") tr = [VDict result1; VDict result2; VDict result3] /\
    eigvecs_0 result1 = inr v1 /\ eigvecs_0 result2 = inr v2 /\
    eigvecs_0 result3 = inr v3.
Proof.
  intros H. track ran. track result_call. track (assigned "result").
  report_exec H.
  do 9 eexists. repeat split; try reflexivity; done.
Qed.

(** X12: why a run of the notebook can fail.  Run top to bottom from an
    empty namespace, the notebook ends with an exception only if a library
    call raised it, and then that is the only exception raised; or if
    [print_result] could not index: [KeyError('eigvecs')] or
    [IndexError], with no library call having raised.  Every global name
    is assigned before it is read, so the notebook never ends with a
    [NameError] or [TypeError] of its own.  A completed run has no raising
    call. *)
Theorem notebook_failure_causes lib tr g out :
  run lib notebook ∅ [] = (tr, g, out) ->
  match out with
  | inr _ => omap raised tr = []
  | inl e => failure_cause e tr
  end.
Proof.
  intros H. unfold failure_cause. track raised.
  report_exec H.
  all: try (by left).
  all: try done.
Qed.

(** X13: the namespace a completed run leaves behind.  It binds exactly
    the twenty names the cells assign; mu, sigma, q, budget and penalty
    still hold the five parameters [portfolio.get_operator] was called
    with, [num_assets] is 4, and [result] holds what the last run, QAOA's,
    returned, the result shown last. *)
Theorem final_namespace lib tr g :
  run lib notebook ∅ [] = (tr, g, inr tt) ->
  exists pb steps qaoa result v,
    omap get_operator_call tr = [pb] /\
    omap result_call tr = steps ++ [Returned qaoa result; Sampled v] /\
    bound g pb /\
    g !! "num_assets" = Some (VInt 4) /\
    g !! "result" = Some (VDict result) /\
    dom g = list_to_set
      ["provider"; "num_assets"; "stocks"; "data"; "mu"; "sigma"; "q"; "budget";
       "penalty"; "qubitOp"; "offset"; "exact_eigensolver"; "result"; "backend";
       "seed"; "cobyla"; "ry"; "vqe"; "quantum_instance"; "qaoa"].
Proof.
  intros H. track get_operator_call. track result_call.
  report_exec H.
  eexists _, [_; _; _; _], _, _, _. split; [reflexivity|]. split; [reflexivity|].
  split; [repeat split; lookup_global|]. split; [lookup_global|].
  split; [lookup_global|].
  rewrite !dom_insert_L, dom_empty_L. set_solver.
Qed.

(** * The properties of the notebook and the further ones at concrete inputs

    The notebook run against the reference library; [index_to_selection]
    at -5 for -3 assets, at 37 (beyond the range of four assets), at the
    vector of index 12 and at -5 for four assets; [print_result] before
    any cell has run, on the variational state and on a result without
    ['eigvecs']. *)


Lemma returns_come_from_random_data_provider_witness :
  run Reference.lib notebook ∅ []
  = (Reference.session.1.1, Reference.session.1.2, inr tt) /\
  Forall (fun pb => exists start end_ data,
            omap data_call (Reference.session.1.1) =
              [MadeDatetime 2016 1 1 start;
               MadeDatetime 2016 1 30 end_;
               MadeProvider ["TICKER0"; "TICKER1"; "TICKER2"; "TICKER3"]
                            start end_ data;
               RanProvider data;
               GotMeanVector data (problem_mu pb);
               GotCovarianceMatrix data (problem_sigma pb)])
         (omap get_operator_call (Reference.session.1.1)) /\
  (@inr exn unit tt = inr tt ->
   exists start end_ data pb,
     omap data_call (Reference.session.1.1) =
       [MadeDatetime 2016 1 1 start;
        MadeDatetime 2016 1 30 end_;
        MadeProvider ["TICKER0"; "TICKER1"; "TICKER2"; "TICKER3"]
                     start end_ data;
        RanProvider data;
        GotMeanVector data (problem_mu pb);
        GotCovarianceMatrix data (problem_sigma pb)] /\
     omap get_operator_call (Reference.session.1.1) = [pb] /\
     omap (assigned "mu") (Reference.session.1.1) = [VVec (problem_mu pb)] /\
     omap (assigned "sigma") (Reference.session.1.1) = [VMat (problem_sigma pb)]).
Proof.
  exact (conj reference_session_completes
           (returns_come_from_random_data_provider _ _ _ _ reference_session_completes)).
Defined.

Lemma budget_and_penalty_constants_witness :
  run Reference.lib notebook ∅ []
  = (Reference.session.1.1, Reference.session.1.2, inr tt) /\
  Py.int (Py.truediv 4 2) = 2 /\
  Forall (eq (VInt 4)) (omap (assigned "num_assets") (Reference.session.1.1)) /\
  Forall (eq (VInt (Py.int (Py.truediv 4 2))))
         (omap (assigned "budget") (Reference.session.1.1)) /\
  Forall (eq (VInt 4)) (omap (assigned "penalty") (Reference.session.1.1)) /\
  Forall (fun pb => problem_budget pb = Py.int (Py.truediv 4 2) /\
                    problem_penalty pb = 4)
         (omap get_operator_call (Reference.session.1.1)) /\
  Forall (fun c => problem_budget (c.2) = Py.int (Py.truediv 4 2) /\
                   problem_penalty (c.2) = 4)
         (omap portfolio_value_call (Reference.session.1.1)) /\
  (@inr exn unit tt = inr tt ->
   omap (assigned "num_assets") (Reference.session.1.1) = [VInt 4] /\
   omap (assigned "budget") (Reference.session.1.1)
     = [VInt (Py.int (Py.truediv 4 2))] /\
   omap (assigned "penalty") (Reference.session.1.1) = [VInt 4] /\
   exists pb t1 t2 t3,
     (problem_budget pb = Py.int (Py.truediv 4 2) /\ problem_penalty pb = 4) /\
     omap get_operator_call (Reference.session.1.1) = [pb] /\
     omap valued (Reference.session.1.1)
       = shown_values pb t1 ++ shown_values pb t2 ++ shown_values pb t3).
Proof.
  exact (conj reference_session_completes
           (budget_and_penalty_constants _ _ _ _ reference_session_completes)).
Defined.


Lemma index_to_selection_beyond_range_witness :
  0 <= 4 /\ 2 ^ 4 <= 37 /\
  exists x, index_to_selection 37 4 = inr x /\
            selection_value x = 37 / 2 ^ (Z.log2 37 + 1 - 4).
Proof.
  assert (H1 : 0 <= 4) by lia. assert (H2 : 2 ^ 4 <= 37) by lia.
  exact (conj H1 (conj H2 (index_to_selection_beyond_range 37 4 H1 H2))).
Defined.

Lemma index_to_selection_bijective_witness :
  0 <= 4 /\ Z.of_nat (length [0; 0; 1; 1]) = 4 /\ binary [0; 0; 1; 1] /\
  0 <= selection_value [0; 0; 1; 1] < 2 ^ 4 /\
  index_to_selection (selection_value [0; 0; 1; 1]) 4 = inr [0; 0; 1; 1] /\
  forall j, 0 <= j < 2 ^ 4 ->
            index_to_selection j 4 = inr [0; 0; 1; 1] ->
            j = selection_value [0; 0; 1; 1].
Proof.
  assert (H1 : 0 <= 4) by lia.
  assert (H2 : Z.of_nat (length [0; 0; 1; 1]) = 4) by reflexivity.
  assert (H3 : binary [0; 0; 1; 1]) by (repeat (constructor; [lia|]); constructor).
  exact (conj H1 (conj H2 (conj H3
           (index_to_selection_bijective 4 [0; 0; 1; 1] H1 H2 H3)))).
Defined.

Lemma index_to_selection_ignores_sign_witness :
  0 < 5 < 2 ^ (4 - 1) /\ index_to_selection (- 5) 4 = index_to_selection 5 4.
Proof.
  assert (H1 : 0 < 5 < 2 ^ (4 - 1)) by lia.
  exact (conj H1 (index_to_selection_ignores_sign 5 4 H1)).
Defined.

Lemma reference_early_table :
  run Reference.lib (print_result Reference.vqe_result) ∅ []
  = (Reference.early_table.1.1, Reference.early_table.1.2, Reference.early_table.2).
Proof. unfold Reference.early_table. by destruct (run _ _ _ _) as [[? ?] ?]. Qed.



Lemma print_result_needs_globals_witness :
  "mu" ∈ ["mu"; "sigma"; "q"; "budget"; "penalty"] /\
  (∅ : globals) !! "mu" = None /\
  run Reference.lib (print_result Reference.vqe_result) ∅ []
  = (Reference.early_table.1.1, Reference.early_table.1.2, Reference.early_table.2) /\
  (exists e, Reference.early_table.2 = inl e) /\
  omap printed (drop (length (@nil event)) (Reference.early_table.1.1)) = [].
Proof.
  assert (H1 : "mu" ∈ ["mu"; "sigma"; "q"; "budget"; "penalty"]) by left.
  assert (H2 : (∅ : globals) !! "mu" = None) by reflexivity.
  exact (conj H1 (conj H2 (conj reference_early_table
           (print_result_needs_globals _ _ _ _ _ _ _ _ H1 H2 reference_early_table)))).
Defined.

Lemma print_result_keeps_namespace_witness :
  run Reference.lib (print_result Reference.vqe_result) (Reference.session.1.2) []
  = (Reference.table.1.1, Reference.table.1.2, inr tt) /\
  Reference.table.1.2 = Reference.session.1.2 /\
  omap assignment (drop (length (@nil event)) (Reference.table.1.1)) = [].
Proof.
  exact (conj reference_table_completes
           (print_result_keeps_namespace _ _ _ _ _ _ _ reference_table_completes)).
Defined.


Lemma full_result_table_rows_witness :
  0 <= 4 /\
  Reference.session.1.2 !! "num_assets" = Some (VInt 4) /\
  eigvecs_0 Reference.vqe_result = inr Reference.variational_state /\
  Forall numpy_answer (Reference.table.1.1) /\
  run Reference.lib (print_result Reference.vqe_result) (Reference.session.1.2) []
  = (Reference.table.1.1, Reference.table.1.2, inr tt) /\
  let rows := table_rows (drop (length (@nil event)) (Reference.table.1.1)) in
  length rows = length Reference.variational_state /\
  (NoDup (rows.*1.*1) <-> Z.of_nat (length Reference.variational_state) <= 2 ^ 4).
Proof.
  assert (H1 : 0 <= 4) by lia.
  assert (H2 : Reference.session.1.2 !! "num_assets" = Some (VInt 4))
    by (vm_compute; reflexivity).
  assert (H3 : eigvecs_0 Reference.vqe_result = inr Reference.variational_state)
    by (vm_compute; reflexivity).
  assert (H5 : Forall numpy_answer (Reference.table.1.1))
    by (apply reference_numpy; constructor).
  exact (conj H1 (conj H2 (conj H3 (conj H5
           (conj reference_table_completes
              (full_result_table_rows _ _ _ _ _ _ _ _ H1 H2 H3 H5
                 reference_table_completes)))))).
Defined.

Lemma algorithms_configuration_witness :
  run Reference.lib notebook ∅ []
  = (Reference.session.1.1, Reference.session.1.2, inr tt) /\
  exists qubitOp exact_eigensolver backend cobyla num_qubits ry vqe quantum_instance
         backend' cobyla' qaoa quantum_instance',
    omap operator_built (Reference.session.1.1) = [qubitOp] /\
    omap setup_call (Reference.session.1.1) =
      [MadeAlgorithm (AlgExactEigensolver qubitOp 1) exact_eigensolver;
       RanAlgorithm exact_eigensolver None;
       GotBackend "statevector_simulator" backend;
       MadeOptimizer cobyla;
       SetMaxiter cobyla 500;
       GotNumQubits qubitOp num_qubits;
       MadeVarForm num_qubits 3 "full" ry;
       MadeAlgorithm (AlgVQE qubitOp ry cobyla) vqe;
       SetRandomSeed vqe 50;
       MadeQuantumInstance backend 50 50 quantum_instance;
       RanAlgorithm vqe (Some quantum_instance);
       GotBackend "statevector_simulator" backend';
       MadeOptimizer cobyla';
       SetMaxiter cobyla' 250;
       MadeAlgorithm (AlgQAOA qubitOp cobyla' 3) qaoa;
       SetRandomSeed qaoa 50;
       MadeQuantumInstance backend' 50 50 quantum_instance';
       RanAlgorithm qaoa (Some quantum_instance')].
Proof.
  exact (conj reference_session_completes
           (algorithms_configuration _ _ _ reference_session_completes)).
Defined.

Lemma print_result_shows_each_run_witness :
  run Reference.lib notebook ∅ []
  = (Reference.session.1.1, Reference.session.1.2, inr tt) /\
  exists exact_eigensolver vqe qaoa result1 result2 result3 v1 v2 v3,
    omap ran (Reference.session.1.1) = [exact_eigensolver; vqe; qaoa] /\
    omap result_call (Reference.session.1.1) =
      [Returned exact_eigensolver result1; Sampled v1;
       Returned vqe result2; Sampled v2;
       Returned qaoa result3; Sampled v3] /\
    omap (assigned "result") (Reference.session.1.1)
      = [VDict result1; VDict result2; VDict result3] /\
    eigvecs_0 result1 = inr v1 /\ eigvecs_0 result2 = inr v2 /\
    eigvecs_0 result3 = inr v3.
Proof.
  exact (conj reference_session_completes
           (print_result_shows_each_run _ _ _ reference_session_completes)).
Defined.

Lemma notebook_failure_causes_witness :
  run (Reference.failing_at 30 (LibraryError "AquaError")) notebook ∅ []
  = (Reference.failed_session.1.1, Reference.failed_session.1.2,
     inl (LibraryError "AquaError")) /\
  failure_cause (LibraryError "AquaError") (Reference.failed_session.1.1).
Proof.
  exact (conj reference_session_fails
           (notebook_failure_causes _ _ _ _ reference_session_fails)).
Defined.

Lemma final_namespace_witness :
  run Reference.lib notebook ∅ []
  = (Reference.session.1.1, Reference.session.1.2, inr tt) /\
  exists pb steps qaoa result v,
    omap get_operator_call (Reference.session.1.1) = [pb] /\
    omap result_call (Reference.session.1.1)
      = steps ++ [Returned qaoa result; Sampled v] /\
    bound (Reference.session.1.2) pb /\
    Reference.session.1.2 !! "num_assets" = Some (VInt 4) /\
    Reference.session.1.2 !! "result" = Some (VDict result) /\
    dom (Reference.session.1.2) = list_to_set
      ["provider"; "num_assets"; "stocks"; "data"; "mu"; "sigma"; "q"; "budget";
       "penalty"; "qubitOp"; "offset"; "exact_eigensolver"; "result"; "backend";
       "seed"; "cobyla"; "ry"; "vqe"; "quantum_instance"; "qaoa"].
Proof.
  exact (conj reference_session_completes
           (final_namespace _ _ _ reference_session_completes)).
Defined.
